(** * Crop coefficient database and water-demand calculator

    Shallow embedding of the crop database part of
    [src/services/weather-api.ts] (the module the tests import as
    [crop-database]): the FAO-56 crop table [BRAZILIAN_CROPS], the three
    catalog queries and the three calculator functions.

    Numbers.  The calculator is given twice.  The main development reads
    the TypeScript [number]s as real numbers, the level at which the
    specification states its properties ("for every real dayOfSeason",
    "in exact real arithmetic"): it is the source's arithmetic without
    rounding, and NaN and the infinities are outside it.  Comparisons of
    the source ([<], [<=], [>]) become the boolean tests [Rltb], [Rleb],
    [Rgtb] below, so that every [if] of the source is an [if] here.
    [Module Float64] reads them as IEEE 754 doubles and computes what the
    source returns, rounding included; it is used wherever a property of
    the exact arithmetic is lost to rounding.

    Division.  [/] on [R] is a total function; the source divides by
    [development], [lateSeason] and [totalDays] only, and these are
    non-zero under [positiveStages], the standing hypothesis of the
    theorems about the calculator, so no theorem rests on a quotient by
    zero (where the source would give NaN or an infinity).

    Strings are [String.string]; [===] on strings is [String.eqb]. *)

From Stdlib Require Import Reals Lra List String Bool Floats.
Import ListNotations.

Set Warnings "-inexact-float".

Local Open Scope R_scope.

(** ** Boolean comparisons on reals *)

Definition Rltb (x y : R) : bool := if Rlt_dec x y then true else false.
Definition Rleb (x y : R) : bool := if Rle_dec x y then true else false.
Definition Rgtb (x y : R) : bool := Rltb y x.

(** ** Data model: [interface CropData] *)

Record GrowthStages : Type := mkGrowthStages {
  initial : R;      (* days *)
  development : R;  (* days *)
  midSeason : R;    (* days *)
  lateSeason : R    (* days *)
}.

Record CropData : Type := mkCropData {
  id : string;
  name : string;
  namePortuguese : string;
  category : string;
  description : string;
  kcInitial : R;
  kcMid : R;
  kcEnd : R;
  maxHeight : R;    (* meters *)
  growthStages : GrowthStages
}.

(** ** [CROP_CATEGORIES]

    The source is an object literal with eight string-valued properties;
    property order is kept, so it is an association list. *)

Definition CROP_CATEGORIES : list (string * string) :=
  [ ("GRAINS", "Grains & Cereals");
    ("LEGUMES", "Legumes & Pulses");
    ("FIBER", "Fiber Crops");
    ("SUGAR", "Sugar Crops");
    ("BEVERAGES", "Beverage Crops");
    ("FRUITS", "Fruits");
    ("VEGETABLES", "Vegetables");
    ("OILSEEDS", "Oilseeds") ]%string.

(** Property access [CROP_CATEGORIES.KEY]; every key used below is
    declared, the default is never reached. *)
Definition category_of (key : string) : string :=
  match find (fun kv => String.eqb (fst kv) key) CROP_CATEGORIES with
  | Some kv => snd kv
  | None => EmptyString
  end.

(** [Object.values]: the property values in declaration order. *)
Definition Object_values {K V : Type} (o : list (K * V)) : list V :=
  map snd o.

(** ** [BRAZILIAN_CROPS]

    The eighteen records of the source, in source order, with the decimal
    literals as written.  The display strings hold the UTF-8 bytes of the
    source text; only [id] and [category] are ever compared. *)

Definition crop_corn : CropData :=
  {| id := "corn";
     name := "Corn (Maize)";
     namePortuguese := "Milho";
     category := category_of "GRAINS";
     description := "Field corn for grain production";
     kcInitial := 0.3;
     kcMid := 1.2;
     kcEnd := 0.35;
     maxHeight := 2.0;
     growthStages :=
       {| initial := 20;
          development := 35;
          midSeason := 40;
          lateSeason := 30 |} |}.

Definition crop_rice : CropData :=
  {| id := "rice";
     name := "Rice";
     namePortuguese := "Arroz";
     category := category_of "GRAINS";
     description := "Paddy rice cultivation";
     kcInitial := 1.05;
     kcMid := 1.2;
     kcEnd := 0.9;
     maxHeight := 1.0;
     growthStages :=
       {| initial := 30;
          development := 30;
          midSeason := 60;
          lateSeason := 30 |} |}.

Definition crop_wheat : CropData :=
  {| id := "wheat";
     name := "Wheat";
     namePortuguese := "Trigo";
     category := category_of "GRAINS";
     description := "Spring wheat for grain";
     kcInitial := 0.3;
     kcMid := 1.15;
     kcEnd := 0.25;
     maxHeight := 1.0;
     growthStages :=
       {| initial := 15;
          development := 30;
          midSeason := 65;
          lateSeason := 40 |} |}.

Definition crop_sorghum : CropData :=
  {| id := "sorghum";
     name := "Sorghum";
     namePortuguese := "Sorgo";
     category := category_of "GRAINS";
     description := "Grain sorghum";
     kcInitial := 0.3;
     kcMid := 1.0;
     kcEnd := 0.55;
     maxHeight := 1.2;
     growthStages :=
       {| initial := 20;
          development := 35;
          midSeason := 40;
          lateSeason := 30 |} |}.

Definition crop_soybeans : CropData :=
  {| id := "soybeans";
     name := "Soybeans";
     namePortuguese := "Soja";
     category := category_of "OILSEEDS";
     description := "Most important Brazilian oilseed crop";
     kcInitial := 0.4;
     kcMid := 1.15;
     kcEnd := 0.5;
     maxHeight := 0.8;
     growthStages :=
       {| initial := 15;
          development := 25;
          midSeason := 50;
          lateSeason := 30 |} |}.

Definition crop_beans_dry : CropData :=
  {| id := "beans-dry";
     name := "Beans (Dry)";
     namePortuguese := "Feijão";
     category := category_of "LEGUMES";
     description := "Common dry beans";
     kcInitial := 0.4;
     kcMid := 1.15;
     kcEnd := 0.35;
     maxHeight := 0.4;
     growthStages :=
       {| initial := 20;
          development := 30;
          midSeason := 40;
          lateSeason := 20 |} |}.

Definition crop_peanuts : CropData :=
  {| id := "peanuts";
     name := "Peanuts (Groundnuts)";
     namePortuguese := "Amendoim";
     category := category_of "OILSEEDS";
     description := "Groundnut cultivation";
     kcInitial := 0.4;
     kcMid := 1.15;
     kcEnd := 0.6;
     maxHeight := 0.4;
     growthStages :=
       {| initial := 25;
          development := 35;
          midSeason := 45;
          lateSeason := 25 |} |}.

Definition crop_cotton : CropData :=
  {| id := "cotton";
     name := "Cotton";
     namePortuguese := "Algodão";
     category := category_of "FIBER";
     description := "Cotton for fiber production";
     kcInitial := 0.35;
     kcMid := 1.15;
     kcEnd := 0.5;
     maxHeight := 1.5;
     growthStages :=
       {| initial := 30;
          development := 50;
          midSeason := 60;
          lateSeason := 55 |} |}.

Definition crop_sugarcane_virgin : CropData :=
  {| id := "sugarcane-virgin";
     name := "Sugarcane (Virgin)";
     namePortuguese := "Cana-de-açúcar (Virgem)";
     category := category_of "SUGAR";
     description := "First year sugarcane planting";
     kcInitial := 0.4;
     kcMid := 1.25;
     kcEnd := 0.75;
     maxHeight := 3.0;
     growthStages :=
       {| initial := 35;
          development := 60;
          midSeason := 190;
          lateSeason := 120 |} |}.

Definition crop_sugarcane_ratoon : CropData :=
  {| id := "sugarcane-ratoon";
     name := "Sugarcane (Ratoon)";
     namePortuguese := "Cana-de-açúcar (Soca)";
     category := category_of "SUGAR";
     description := "Regrowth sugarcane after harvest";
     kcInitial := 0.4;
     kcMid := 1.25;
     kcEnd := 0.75;
     maxHeight := 3.0;
     growthStages :=
       {| initial := 25;
          development := 35;
          midSeason := 180;
          lateSeason := 150 |} |}.

Definition crop_coffee : CropData :=
  {| id := "coffee";
     name := "Coffee";
     namePortuguese := "Café";
     category := category_of "BEVERAGES";
     description := "Coffee plantation (bare ground)";
     kcInitial := 0.9;
     kcMid := 0.95;
     kcEnd := 0.95;
     maxHeight := 3.0;
     growthStages :=
       {| initial := 60;
          development := 90;
          midSeason := 120;
          lateSeason := 95 |} |}.

Definition crop_banana : CropData :=
  {| id := "banana";
     name := "Banana";
     namePortuguese := "Banana";
     category := category_of "FRUITS";
     description := "Banana plantation (1st year)";
     kcInitial := 0.5;
     kcMid := 1.1;
     kcEnd := 1.0;
     maxHeight := 4.0;
     growthStages :=
       {| initial := 120;
          development := 90;
          midSeason := 120;
          lateSeason := 60 |} |}.

Definition crop_citrus : CropData :=
  {| id := "citrus";
     name := "Citrus (Orange)";
     namePortuguese := "Laranja";
     category := category_of "FRUITS";
     description := "Orange trees with 70% canopy";
     kcInitial := 0.7;
     kcMid := 0.65;
     kcEnd := 0.7;
     maxHeight := 4.0;
     growthStages :=
       {| initial := 60;
          development := 90;
          midSeason := 120;
          lateSeason := 95 |} |}.

Definition crop_mango : CropData :=
  {| id := "mango";
     name := "Mango";
     namePortuguese := "Manga";
     category := category_of "FRUITS";
     description := "Mango orchard";
     kcInitial := 0.75;
     kcMid := 0.8;
     kcEnd := 0.75;
     maxHeight := 5.0;
     growthStages :=
       {| initial := 90;
          development := 90;
          midSeason := 120;
          lateSeason := 60 |} |}.

Definition crop_tomato : CropData :=
  {| id := "tomato";
     name := "Tomato";
     namePortuguese := "Tomate";
     category := category_of "VEGETABLES";
     description := "Fresh market tomato";
     kcInitial := 0.6;
     kcMid := 1.15;
     kcEnd := 0.7;
     maxHeight := 0.6;
     growthStages :=
       {| initial := 30;
          development := 40;
          midSeason := 50;
          lateSeason := 30 |} |}.

Definition crop_potato : CropData :=
  {| id := "potato";
     name := "Potato";
     namePortuguese := "Batata";
     category := category_of "VEGETABLES";
     description := "Potato cultivation";
     kcInitial := 0.5;
     kcMid := 1.15;
     kcEnd := 0.75;
     maxHeight := 0.6;
     growthStages :=
       {| initial := 25;
          development := 30;
          midSeason := 45;
          lateSeason := 30 |} |}.

Definition crop_onion_dry : CropData :=
  {| id := "onion-dry";
     name := "Onion (Dry)";
     namePortuguese := "Cebola";
     category := category_of "VEGETABLES";
     description := "Dry bulb onion";
     kcInitial := 0.7;
     kcMid := 1.05;
     kcEnd := 0.75;
     maxHeight := 0.4;
     growthStages :=
       {| initial := 15;
          development := 25;
          midSeason := 70;
          lateSeason := 40 |} |}.

Definition crop_cassava : CropData :=
  {| id := "cassava";
     name := "Cassava (Manioc)";
     namePortuguese := "Mandioca";
     category := category_of "VEGETABLES";
     description := "Cassava root crop (1st year)";
     kcInitial := 0.3;
     kcMid := 0.8;
     kcEnd := 0.3;
     maxHeight := 1.0;
     growthStages :=
       {| initial := 20;
          development := 40;
          midSeason := 90;
          lateSeason := 60 |} |}.

Definition BRAZILIAN_CROPS : list CropData :=
  [ crop_corn;
    crop_rice;
    crop_wheat;
    crop_sorghum;
    crop_soybeans;
    crop_beans_dry;
    crop_peanuts;
    crop_cotton;
    crop_sugarcane_virgin;
    crop_sugarcane_ratoon;
    crop_coffee;
    crop_banana;
    crop_citrus;
    crop_mango;
    crop_tomato;
    crop_potato;
    crop_onion_dry;
    crop_cassava ].

(** ** Catalog queries *)

(** The two queries read the module-level array.  Each is written first
    over an arbitrary array ([_in]), then closed over [BRAZILIAN_CROPS] as
    in the source; the [_in] forms serve the state-passing view below. *)

(** [catalog.find((crop) => crop.id === id)]; [undefined] is [None]. *)
Definition getCropById_in (catalog : list CropData) (id0 : string)
    : option CropData :=
  find (fun crop => String.eqb (id crop) id0) catalog.

Definition getCropById (id0 : string) : option CropData :=
  getCropById_in BRAZILIAN_CROPS id0.

(** [catalog.filter((crop) => crop.category === category)]. *)
Definition getCropsByCategory_in (catalog : list CropData)
    (category0 : string) : list CropData :=
  filter (fun crop => String.eqb (category crop) category0) catalog.

Definition getCropsByCategory (category0 : string) : list CropData :=
  getCropsByCategory_in BRAZILIAN_CROPS category0.

(** [Object.values(CROP_CATEGORIES)]. *)
Definition getAllCategories : list string :=
  Object_values CROP_CATEGORIES.

(** ** Calculator *)

(** [ETc = Kc x ET0]. *)
Definition calculateETc (et0 kc : R) : R := et0 * kc.

(** Kc for a day of the growing season, by linear interpolation between
    the growth stages.  The [if]s are those of the source, in its order. *)
Definition getKcForDay (crop : CropData) (dayOfSeason : R) : R :=
  let initial := initial (growthStages crop) in
  let development := development (growthStages crop) in
  let midSeason := midSeason (growthStages crop) in
  let lateSeason := lateSeason (growthStages crop) in
  let totalDays := initial + development + midSeason + lateSeason in
  if Rltb dayOfSeason 0 || Rgtb dayOfSeason totalDays then
    kcEnd crop
  else if Rleb dayOfSeason initial then
    (* Initial stage *)
    kcInitial crop
  else if Rleb dayOfSeason (initial + development) then
    (* Development stage *)
    let daysIntoStage := dayOfSeason - initial in
    let progress := daysIntoStage / development in
    kcInitial crop + progress * (kcMid crop - kcInitial crop)
  else if Rleb dayOfSeason (initial + development + midSeason) then
    (* Mid-season stage *)
    kcMid crop
  else
    (* Late season stage *)
    let daysIntoLateSeason :=
      dayOfSeason - (initial + development + midSeason) in
    let progress := daysIntoLateSeason / lateSeason in
    kcMid crop + progress * (kcEnd crop - kcMid crop).

(** The object returned by [calculateSeasonalWaterRequirement]. *)
Record SeasonalWaterRequirement : Type := mkSeasonalWaterRequirement {
  totalDays : R;
  averageKc : R;
  totalWaterMm : R;
  dailyAverageWaterMm : R
}.

Definition calculateSeasonalWaterRequirement
    (crop : CropData) (averageET0 : R) : SeasonalWaterRequirement :=
  let initial := initial (growthStages crop) in
  let development := development (growthStages crop) in
  let midSeason := midSeason (growthStages crop) in
  let lateSeason := lateSeason (growthStages crop) in
  let totalDays := initial + development + midSeason + lateSeason in
  let avgKcInitial := kcInitial crop in
  let avgKcDevelopment := (kcInitial crop + kcMid crop) / 2 in
  let avgKcMid := kcMid crop in
  let avgKcLate := (kcMid crop + kcEnd crop) / 2 in
  let weightedKc :=
    (avgKcInitial * initial +
     avgKcDevelopment * development +
     avgKcMid * midSeason +
     avgKcLate * lateSeason) / totalDays in
  let totalWaterMm := weightedKc * averageET0 * totalDays in
  let dailyAverageWaterMm := totalWaterMm / totalDays in
  {| totalDays := totalDays;
     averageKc := weightedKc;
     totalWaterMm := totalWaterMm;
     dailyAverageWaterMm := dailyAverageWaterMm |}.

(** ** Vocabulary of the specification *)

(** The four stage lengths are strictly positive. *)
Definition positiveStages (crop : CropData) : Prop :=
  0 < initial (growthStages crop) /\
  0 < development (growthStages crop) /\
  0 < midSeason (growthStages crop) /\
  0 < lateSeason (growthStages crop).

(** Cumulative stage boundaries [b1], [b2], [b3] and the season length. *)
Definition b1 (crop : CropData) : R := initial (growthStages crop).
Definition b2 (crop : CropData) : R := b1 crop + development (growthStages crop).
Definition b3 (crop : CropData) : R := b2 crop + midSeason (growthStages crop).
Definition seasonLength (crop : CropData) : R :=
  b3 crop + lateSeason (growthStages crop).

(** Each coefficient lies in (0, 1.5]. *)
Definition kcInRange (k : R) : Prop := 0 < k <= 1.5.

(** The data-model invariant of a crop record. *)
Definition cropInvariant (crop : CropData) : Prop :=
  positiveStages crop /\
  kcInRange (kcInitial crop) /\ kcInRange (kcMid crop) /\ kcInRange (kcEnd crop).

(** The reference definition of the daily coefficient, case by case as
    the specification words it: [kcReference crop d k] reads "the
    specification assigns [k] to day [d]". *)
Inductive kcReference (crop : CropData) (d : R) : R -> Prop :=
| KcOutOfRange :
    d < 0 \/ d > seasonLength crop ->
    kcReference crop d (kcEnd crop)
| KcInitialStage :
    0 <= d <= b1 crop ->
    kcReference crop d (kcInitial crop)
| KcDevelopmentStage :
    b1 crop < d <= b2 crop ->
    kcReference crop d
      (kcInitial crop +
       ((d - b1 crop) / development (growthStages crop)) *
       (kcMid crop - kcInitial crop))
| KcMidSeasonStage :
    b2 crop < d <= b3 crop ->
    kcReference crop d (kcMid crop)
| KcLateSeasonStage :
    b3 crop < d <= seasonLength crop ->
    kcReference crop d
      (kcMid crop +
       ((d - b3 crop) / lateSeason (growthStages crop)) *
       (kcEnd crop - kcMid crop)).

(** [f] is Riemann integrable on [a, b] with integral [v]. *)
Definition IntegralOn (f : R -> R) (a b v : R) : Prop :=
  exists pr : Riemann_integrable f a b, RiemannInt pr = v.


(** ** The module seen as state

    [BRAZILIAN_CROPS] is the only object the exported functions share.
    A call takes the current array and gives back its result together
    with the array it leaves; no function of the source assigns to the
    array or to a record in it, so each call hands back the array it
    was given. *)

Inductive Call : Type :=
| CallGetCropById (id0 : string)
| CallGetCropsByCategory (category0 : string)
| CallGetAllCategories
| CallCalculateETc (et0 kc : R)
| CallGetKcForDay (crop : CropData) (dayOfSeason : R)
| CallCalculateSeasonalWaterRequirement (crop : CropData) (averageET0 : R).

Inductive Outcome : Type :=
| OutCrop (found : option CropData)
| OutCrops (crops : list CropData)
| OutLabels (labels : list string)
| OutNumber (x : R)
| OutSeasonal (r : SeasonalWaterRequirement).

Definition perform (catalog : list CropData) (c : Call)
    : Outcome * list CropData :=
  match c with
  | CallGetCropById id0 =>
      (OutCrop (getCropById_in catalog id0), catalog)
  | CallGetCropsByCategory category0 =>
      (OutCrops (getCropsByCategory_in catalog category0), catalog)
  | CallGetAllCategories =>
      (OutLabels getAllCategories, catalog)
  | CallCalculateETc et0 kc =>
      (OutNumber (calculateETc et0 kc), catalog)
  | CallGetKcForDay crop dayOfSeason =>
      (OutNumber (getKcForDay crop dayOfSeason), catalog)
  | CallCalculateSeasonalWaterRequirement crop averageET0 =>
      (OutSeasonal (calculateSeasonalWaterRequirement crop averageET0),
       catalog)
  end.

(** The array left by a sequence of calls. *)
Fixpoint performAll (catalog : list CropData) (calls : list Call)
    : list CropData :=
  match calls with
  | [] => catalog
  | c :: rest => performAll (snd (perform catalog c)) rest
  end.

(** ** The crops screen: [src/app/(tabs)/crops.tsx]

    [filteredCrops = selectedCategory ? getCropsByCategory(selectedCategory)
    : BRAZILIAN_CROPS], with [selectedCategory : string | null]; [null] and
    the empty string are the falsy values. *)
Definition filteredCrops (selectedCategory : option string) : list CropData :=
  match selectedCategory with
  | Some c => if String.eqb c "" then BRAZILIAN_CROPS else getCropsByCategory c
  | None => BRAZILIAN_CROPS
  end.

(** The three figures of the detail view: [calculateETc(et0, crop.kc...)]. *)
Definition etcInitial (crop : CropData) (et0 : R) : R :=
  calculateETc et0 (kcInitial crop).
Definition etcMid (crop : CropData) (et0 : R) : R :=
  calculateETc et0 (kcMid crop).
Definition etcEnd (crop : CropData) (et0 : R) : R :=
  calculateETc et0 (kcEnd crop).

(** ** Vocabulary for the further properties *)

(** [===] on numbers. *)
Definition Reqb (x y : R) : bool := if Req_dec_T x y then true else false.

(** Clamping to the unit interval: the progress through a ramp, held at 0
    before it and at 1 after it. *)
Definition clamp01 (t : R) : R := Rmax 0 (Rmin 1 t).

(** * The weather service: the first part of [src/services/weather-api.ts] *)

Module WeatherApi.

(** Icon for a WMO weather code. *)
Definition getWeatherIcon (code : R) : string :=
  if Reqb code 0 then "☀️"        (* Clear sky *)
  else if Rleb code 3 then "⛅"    (* Partly cloudy *)
  else if Rleb code 48 then "🌫️"  (* Fog *)
  else if Rleb code 57 then "🌧️"  (* Drizzle *)
  else if Rleb code 67 then "🌧️"  (* Rain *)
  else if Rleb code 77 then "🌨️"  (* Snow *)
  else if Rleb code 82 then "🌧️"  (* Rain showers *)
  else if Rleb code 86 then "🌨️"  (* Snow showers *)
  else if Rleb code 99 then "⛈️"  (* Thunderstorm *)
  else "🌤️".                      (* Default *)

(** Description for a WMO weather code. *)
Definition getWeatherDescription (code : R) : string :=
  if Reqb code 0 then "Clear sky"
  else if Reqb code 1 then "Mainly clear"
  else if Reqb code 2 then "Partly cloudy"
  else if Reqb code 3 then "Overcast"
  else if Reqb code 45 || Reqb code 48 then "Fog"
  else if Reqb code 51 || Reqb code 53 || Reqb code 55 then "Drizzle"
  else if Reqb code 61 || Reqb code 63 || Reqb code 65 then "Rain"
  else if Reqb code 71 || Reqb code 73 || Reqb code 75 then "Snow"
  else if Reqb code 77 then "Snow grains"
  else if Reqb code 80 || Reqb code 81 || Reqb code 82 then "Rain showers"
  else if Reqb code 85 || Reqb code 86 then "Snow showers"
  else if Reqb code 95 then "Thunderstorm"
  else if Reqb code 96 || Reqb code 99 then "Thunderstorm with hail"
  else "Unknown".

(** The object returned by [getET0Level]. *)
Record ET0Level : Type := mkET0Level {
  level : string;
  color : string;
  description : string
}.

Definition getET0Level (et0 : R) : ET0Level :=
  if Rltb et0 3 then
    {| level := "Low";
       color := "#4CAF50";
       description := "Minimal irrigation needed" |}
  else if Rltb et0 5 then
    {| level := "Moderate";
       color := "#2E7D32";
       description := "Normal irrigation requirements" |}
  else if Rltb et0 7 then
    {| level := "High";
       color := "#FF9800";
       description := "Increased irrigation needed" |}
  else
    {| level := "Very High";
       color := "#D32F2F";
       description := "Maximum irrigation required" |}.

(** The four levels in increasing order of irrigation need; any other
    string ranks with the last. *)
Definition levelRank (l : string) : nat :=
  if String.eqb l "Low" then 0
  else if String.eqb l "Moderate" then 1
  else if String.eqb l "High" then 2
  else 3.

End WeatherApi.

(** * The location store: [location-storage] (in [src/unnamed/part_002])

    [AsyncStorage] is the state.  The module uses two keys; each value is
    written with [JSON.stringify] and read back with [JSON.parse], and the
    store is modelled as holding the value itself under each key.  A call
    to the backend may reject: [faults] lists, call by call, whether the
    next backend calls reject ([true]) or go through ([false]); once the
    list is used up every call goes through.  A promise either resolves
    with a value or rejects; [console.error] is not modelled. *)

Module LocationStorage.

Record Location : Type := mkLocation {
  name : string;
  latitude : R;
  longitude : R
}.

Record Store : Type := mkStore {
  currentLocationItem : option Location;       (* CURRENT_LOCATION_KEY *)
  savedLocationsItem : option (list Location); (* SAVED_LOCATIONS_KEY *)
  faults : list bool
}.

Inductive Settled (A : Type) : Type :=
| Resolved (a : A)
| Rejected.

Arguments Resolved {A} a.
Arguments Rejected {A}.

Definition Async (A : Type) : Type := Store -> Settled A * Store.

Definition ret {A : Type} (a : A) : Async A := fun s => (Resolved a, s).

(** [await m] followed by [k]; a rejection of [m] is thrown on. *)
Definition bind {A B : Type} (m : Async A) (k : A -> Async B) : Async B :=
  fun s =>
    match m s with
    | (Resolved a, s') => k a s'
    | (Rejected, s') => (Rejected, s')
    end.

(** [try { m } catch (error) { handler }]. *)
Definition try_catch {A : Type} (m : Async A) (handler : Async A) : Async A :=
  fun s =>
    match m s with
    | (Resolved a, s') => (Resolved a, s')
    | (Rejected, s') => handler s'
    end.

(** [throw error]. *)
Definition throw {A : Type} : Async A := fun s => (Rejected, s).

Notation "x <- m ;; k" := (bind m (fun x => k))
  (at level 61, m at next level, right associativity).

(** Does the next backend call reject? *)
Definition nextFault (s : Store) : bool * Store :=
  match faults s with
  | [] => (false, s)
  | f :: rest =>
      (f, {| currentLocationItem := currentLocationItem s;
             savedLocationsItem := savedLocationsItem s;
             faults := rest |})
  end.

(** [AsyncStorage.getItem(CURRENT_LOCATION_KEY)], parsed. *)
Definition getItem_current : Async (option Location) :=
  fun s =>
    let (bad, s') := nextFault s in
    if bad then (Rejected, s') else (Resolved (currentLocationItem s'), s').

(** [AsyncStorage.setItem(CURRENT_LOCATION_KEY, JSON.stringify(location))]. *)
Definition setItem_current (location : Location) : Async unit :=
  fun s =>
    let (bad, s') := nextFault s in
    if bad then (Rejected, s')
    else (Resolved tt,
          {| currentLocationItem := Some location;
             savedLocationsItem := savedLocationsItem s';
             faults := faults s' |}).

(** [AsyncStorage.getItem(SAVED_LOCATIONS_KEY)], parsed. *)
Definition getItem_saved : Async (option (list Location)) :=
  fun s =>
    let (bad, s') := nextFault s in
    if bad then (Rejected, s') else (Resolved (savedLocationsItem s'), s').

(** [AsyncStorage.setItem(SAVED_LOCATIONS_KEY, JSON.stringify(locations))]. *)
Definition setItem_saved (locations : list Location) : Async unit :=
  fun s =>
    let (bad, s') := nextFault s in
    if bad then (Rejected, s')
    else (Resolved tt,
          {| currentLocationItem := currentLocationItem s';
             savedLocationsItem := Some locations;
             faults := faults s' |}).

(** Get current selected location: [data ? JSON.parse(data) : null], and
    [null] when the backend rejects. *)
Definition getCurrentLocation : Async (option Location) :=
  try_catch
    (data <- getItem_current ;;
     ret (match data with Some l => Some l | None => None end))
    (ret None).

(** Set current selected location; a rejection is thrown on. *)
Definition setCurrentLocation (location : Location) : Async unit :=
  try_catch (setItem_current location) throw.

(** Get all saved locations: [data ? JSON.parse(data) : []], and [[]]
    when the backend rejects. *)
Definition getSavedLocations : Async (list Location) :=
  try_catch
    (data <- getItem_saved ;;
     ret (match data with Some l => l | None => [] end))
    (ret []).

(** [loc.latitude === location.latitude && loc.longitude ===
    location.longitude]. *)
Definition sameCoordinates (location loc : Location) : bool :=
  Reqb (latitude loc) (latitude location) &&
  Reqb (longitude loc) (longitude location).

(** Add a location to saved locations, unless one with the same
    coordinates is there. *)
Definition addSavedLocation (location : Location) : Async unit :=
  try_catch
    (locations <- getSavedLocations ;;
     let exists_ := existsb (sameCoordinates location) locations in
     if negb exists_ then
       (* locations.push(location) *)
       setItem_saved (locations ++ [location])
     else ret tt)
    throw.

(** Remove a location from saved locations. *)
Definition removeSavedLocation (location : Location) : Async unit :=
  try_catch
    (locations <- getSavedLocations ;;
     let filtered :=
       filter (fun loc =>
                 negb (Reqb (latitude loc) (latitude location)) ||
                 negb (Reqb (longitude loc) (longitude location)))
              locations in
     setItem_saved filtered)
    throw.

(** Default locations for Brazil. *)
Definition DEFAULT_BRAZIL_LOCATIONS : list Location :=
  [ {| name := "São Paulo, SP"; latitude := -23.5505; longitude := -46.6333 |};
    {| name := "Brasília, DF"; latitude := -15.7939; longitude := -47.8828 |};
    {| name := "Rio de Janeiro, RJ";
       latitude := -22.9068; longitude := -43.1729 |};
    {| name := "Curitiba, PR"; latitude := -25.4284; longitude := -49.2733 |};
    {| name := "Belo Horizonte, MG";
       latitude := -19.9167; longitude := -43.9345 |};
    {| name := "Manaus, AM"; latitude := -3.1190; longitude := -60.0217 |};
    {| name := "Porto Alegre, RS";
       latitude := -30.0346; longitude := -51.2177 |};
    {| name := "Salvador, BA"; latitude := -12.9714; longitude := -38.5014 |};
    {| name := "Fortaleza, CE"; latitude := -3.7172; longitude := -38.5433 |};
    {| name := "Goiânia, GO"; latitude := -16.6869; longitude := -49.2648 |} ].

(** [DEFAULT_BRAZIL_LOCATIONS[0]]; the list is not empty, the default of
    [hd] is never used. *)
Definition defaultLocation : Location :=
  hd {| name := ""; latitude := 0; longitude := 0 |} DEFAULT_BRAZIL_LOCATIONS.

(** [for (const location of locations) { await f(location); }]. *)
Fixpoint forEach {A : Type} (f : A -> Async unit) (l : list A) : Async unit :=
  match l with
  | [] => ret tt
  | x :: rest => _ <- f x ;; forEach f rest
  end.

(** Initialize default location if none exists. *)
Definition initializeDefaultLocation : Async Location :=
  current <- getCurrentLocation ;;
  saved <- getSavedLocations ;;
  _ <- (match current with
        | None => setCurrentLocation defaultLocation
        | Some _ => ret tt
        end) ;;
  _ <- (if Nat.eqb (List.length saved) 0
        then forEach addSavedLocation DEFAULT_BRAZIL_LOCATIONS
        else ret tt) ;;
  ret (match current with Some l => l | None => defaultLocation end).

(** A store on which no backend call rejects. *)
Definition healthy (s : Store) : Prop := faults s = [].

(** The saved locations as [getSavedLocations] reads them: the stored
    list, or the empty list when nothing is stored. *)
Definition savedList (s : Store) : list Location :=
  match savedLocationsItem s with
  | Some l => l
  | None => []
  end.

(** Two stores used as concrete inputs: a fresh install, and a user who
    chose Curitiba and saved the first two default cities. *)
Definition freshInstall : Store :=
  {| currentLocationItem := None; savedLocationsItem := None; faults := [] |}.

Definition curitibaUser : Store :=
  {| currentLocationItem :=
       Some {| name := "Curitiba, PR";
               latitude := -25.4284; longitude := -49.2733 |};
     savedLocationsItem := Some (firstn 2 DEFAULT_BRAZIL_LOCATIONS);
     faults := [] |}.

(** The same store when the next backend call, or the one after it,
    rejects. *)
Definition withFaults (fl : list bool) (s : Store) : Store :=
  {| currentLocationItem := currentLocationItem s;
     savedLocationsItem := savedLocationsItem s;
     faults := fl |}.

(** The test of [removeSavedLocation]'s filter. *)
Definition otherCoordinates (location loc : Location) : bool :=
  negb (Reqb (latitude loc) (latitude location)) ||
  negb (Reqb (longitude loc) (longitude location)).

(** No two entries of the list share both coordinates. *)
Fixpoint distinctCoordinates (l : list Location) : Prop :=
  match l with
  | [] => True
  | x :: rest =>
      existsb (sameCoordinates x) rest = false /\ distinctCoordinates rest
  end.

End LocationStorage.

(** * The calculator in double precision

    The same records and the same three calculator functions with
    [number] read as an IEEE 754 binary64 value ([PrimFloat.float]):
    every literal is the nearest double, every operation rounds to
    nearest, ties to even, and a comparison with NaN is false, as in the
    source.  The definitions compute, so the value the source returns on
    a concrete input is obtained by evaluation. *)

Module Float64.

Local Open Scope float_scope.

Record GrowthStages : Type := mkGrowthStages {
  initial : float;      (* days *)
  development : float;  (* days *)
  midSeason : float;    (* days *)
  lateSeason : float    (* days *)
}.

Record CropData : Type := mkCropData {
  id : string;
  name : string;
  namePortuguese : string;
  category : string;
  description : string;
  kcInitial : float;
  kcMid : float;
  kcEnd : float;
  maxHeight : float;    (* meters *)
  growthStages : GrowthStages
}.

Definition crop_corn : CropData :=
  {| id := "corn";
     name := "Corn (Maize)";
     namePortuguese := "Milho";
     category := category_of "GRAINS";
     description := "Field corn for grain production";
     kcInitial := 0.3;
     kcMid := 1.2;
     kcEnd := 0.35;
     maxHeight := 2.0;
     growthStages :=
       {| initial := 20;
          development := 35;
          midSeason := 40;
          lateSeason := 30 |} |}.

Definition crop_rice : CropData :=
  {| id := "rice";
     name := "Rice";
     namePortuguese := "Arroz";
     category := category_of "GRAINS";
     description := "Paddy rice cultivation";
     kcInitial := 1.05;
     kcMid := 1.2;
     kcEnd := 0.9;
     maxHeight := 1.0;
     growthStages :=
       {| initial := 30;
          development := 30;
          midSeason := 60;
          lateSeason := 30 |} |}.

Definition crop_wheat : CropData :=
  {| id := "wheat";
     name := "Wheat";
     namePortuguese := "Trigo";
     category := category_of "GRAINS";
     description := "Spring wheat for grain";
     kcInitial := 0.3;
     kcMid := 1.15;
     kcEnd := 0.25;
     maxHeight := 1.0;
     growthStages :=
       {| initial := 15;
          development := 30;
          midSeason := 65;
          lateSeason := 40 |} |}.

Definition crop_sorghum : CropData :=
  {| id := "sorghum";
     name := "Sorghum";
     namePortuguese := "Sorgo";
     category := category_of "GRAINS";
     description := "Grain sorghum";
     kcInitial := 0.3;
     kcMid := 1.0;
     kcEnd := 0.55;
     maxHeight := 1.2;
     growthStages :=
       {| initial := 20;
          development := 35;
          midSeason := 40;
          lateSeason := 30 |} |}.

Definition crop_soybeans : CropData :=
  {| id := "soybeans";
     name := "Soybeans";
     namePortuguese := "Soja";
     category := category_of "OILSEEDS";
     description := "Most important Brazilian oilseed crop";
     kcInitial := 0.4;
     kcMid := 1.15;
     kcEnd := 0.5;
     maxHeight := 0.8;
     growthStages :=
       {| initial := 15;
          development := 25;
          midSeason := 50;
          lateSeason := 30 |} |}.

Definition crop_beans_dry : CropData :=
  {| id := "beans-dry";
     name := "Beans (Dry)";
     namePortuguese := "Feijão";
     category := category_of "LEGUMES";
     description := "Common dry beans";
     kcInitial := 0.4;
     kcMid := 1.15;
     kcEnd := 0.35;
     maxHeight := 0.4;
     growthStages :=
       {| initial := 20;
          development := 30;
          midSeason := 40;
          lateSeason := 20 |} |}.

Definition crop_peanuts : CropData :=
  {| id := "peanuts";
     name := "Peanuts (Groundnuts)";
     namePortuguese := "Amendoim";
     category := category_of "OILSEEDS";
     description := "Groundnut cultivation";
     kcInitial := 0.4;
     kcMid := 1.15;
     kcEnd := 0.6;
     maxHeight := 0.4;
     growthStages :=
       {| initial := 25;
          development := 35;
          midSeason := 45;
          lateSeason := 25 |} |}.

Definition crop_cotton : CropData :=
  {| id := "cotton";
     name := "Cotton";
     namePortuguese := "Algodão";
     category := category_of "FIBER";
     description := "Cotton for fiber production";
     kcInitial := 0.35;
     kcMid := 1.15;
     kcEnd := 0.5;
     maxHeight := 1.5;
     growthStages :=
       {| initial := 30;
          development := 50;
          midSeason := 60;
          lateSeason := 55 |} |}.

Definition crop_sugarcane_virgin : CropData :=
  {| id := "sugarcane-virgin";
     name := "Sugarcane (Virgin)";
     namePortuguese := "Cana-de-açúcar (Virgem)";
     category := category_of "SUGAR";
     description := "First year sugarcane planting";
     kcInitial := 0.4;
     kcMid := 1.25;
     kcEnd := 0.75;
     maxHeight := 3.0;
     growthStages :=
       {| initial := 35;
          development := 60;
          midSeason := 190;
          lateSeason := 120 |} |}.

Definition crop_sugarcane_ratoon : CropData :=
  {| id := "sugarcane-ratoon";
     name := "Sugarcane (Ratoon)";
     namePortuguese := "Cana-de-açúcar (Soca)";
     category := category_of "SUGAR";
     description := "Regrowth sugarcane after harvest";
     kcInitial := 0.4;
     kcMid := 1.25;
     kcEnd := 0.75;
     maxHeight := 3.0;
     growthStages :=
       {| initial := 25;
          development := 35;
          midSeason := 180;
          lateSeason := 150 |} |}.

Definition crop_coffee : CropData :=
  {| id := "coffee";
     name := "Coffee";
     namePortuguese := "Café";
     category := category_of "BEVERAGES";
     description := "Coffee plantation (bare ground)";
     kcInitial := 0.9;
     kcMid := 0.95;
     kcEnd := 0.95;
     maxHeight := 3.0;
     growthStages :=
       {| initial := 60;
          development := 90;
          midSeason := 120;
          lateSeason := 95 |} |}.

Definition crop_banana : CropData :=
  {| id := "banana";
     name := "Banana";
     namePortuguese := "Banana";
     category := category_of "FRUITS";
     description := "Banana plantation (1st year)";
     kcInitial := 0.5;
     kcMid := 1.1;
     kcEnd := 1.0;
     maxHeight := 4.0;
     growthStages :=
       {| initial := 120;
          development := 90;
          midSeason := 120;
          lateSeason := 60 |} |}.

Definition crop_citrus : CropData :=
  {| id := "citrus";
     name := "Citrus (Orange)";
     namePortuguese := "Laranja";
     category := category_of "FRUITS";
     description := "Orange trees with 70% canopy";
     kcInitial := 0.7;
     kcMid := 0.65;
     kcEnd := 0.7;
     maxHeight := 4.0;
     growthStages :=
       {| initial := 60;
          development := 90;
          midSeason := 120;
          lateSeason := 95 |} |}.

Definition crop_mango : CropData :=
  {| id := "mango";
     name := "Mango";
     namePortuguese := "Manga";
     category := category_of "FRUITS";
     description := "Mango orchard";
     kcInitial := 0.75;
     kcMid := 0.8;
     kcEnd := 0.75;
     maxHeight := 5.0;
     growthStages :=
       {| initial := 90;
          development := 90;
          midSeason := 120;
          lateSeason := 60 |} |}.

Definition crop_tomato : CropData :=
  {| id := "tomato";
     name := "Tomato";
     namePortuguese := "Tomate";
     category := category_of "VEGETABLES";
     description := "Fresh market tomato";
     kcInitial := 0.6;
     kcMid := 1.15;
     kcEnd := 0.7;
     maxHeight := 0.6;
     growthStages :=
       {| initial := 30;
          development := 40;
          midSeason := 50;
          lateSeason := 30 |} |}.

Definition crop_potato : CropData :=
  {| id := "potato";
     name := "Potato";
     namePortuguese := "Batata";
     category := category_of "VEGETABLES";
     description := "Potato cultivation";
     kcInitial := 0.5;
     kcMid := 1.15;
     kcEnd := 0.75;
     maxHeight := 0.6;
     growthStages :=
       {| initial := 25;
          development := 30;
          midSeason := 45;
          lateSeason := 30 |} |}.

Definition crop_onion_dry : CropData :=
  {| id := "onion-dry";
     name := "Onion (Dry)";
     namePortuguese := "Cebola";
     category := category_of "VEGETABLES";
     description := "Dry bulb onion";
     kcInitial := 0.7;
     kcMid := 1.05;
     kcEnd := 0.75;
     maxHeight := 0.4;
     growthStages :=
       {| initial := 15;
          development := 25;
          midSeason := 70;
          lateSeason := 40 |} |}.

Definition crop_cassava : CropData :=
  {| id := "cassava";
     name := "Cassava (Manioc)";
     namePortuguese := "Mandioca";
     category := category_of "VEGETABLES";
     description := "Cassava root crop (1st year)";
     kcInitial := 0.3;
     kcMid := 0.8;
     kcEnd := 0.3;
     maxHeight := 1.0;
     growthStages :=
       {| initial := 20;
          development := 40;
          midSeason := 90;
          lateSeason := 60 |} |}.

Definition BRAZILIAN_CROPS : list CropData :=
  [ crop_corn;
    crop_rice;
    crop_wheat;
    crop_sorghum;
    crop_soybeans;
    crop_beans_dry;
    crop_peanuts;
    crop_cotton;
    crop_sugarcane_virgin;
    crop_sugarcane_ratoon;
    crop_coffee;
    crop_banana;
    crop_citrus;
    crop_mango;
    crop_tomato;
    crop_potato;
    crop_onion_dry;
    crop_cassava ].

(** A record built by a caller: the growth stages of the soybean record
    with coefficients of the caller's choice. *)
Definition customCrop (kI kM kE : float) (stages : GrowthStages) : CropData :=
  {| id := "custom";
     name := "Custom crop";
     namePortuguese := "Cultura";
     category := category_of "GRAINS";
     description := "Record supplied by the caller";
     kcInitial := kI;
     kcMid := kM;
     kcEnd := kE;
     maxHeight := 1.0;
     growthStages := stages |}.

Definition soybeanStages : GrowthStages :=
  {| initial := 15; development := 25; midSeason := 50; lateSeason := 30 |}.

(** [ETc = Kc x ET0]. *)
Definition calculateETc (et0 kc : float) : float := et0 * kc.

Definition getKcForDay (crop : CropData) (dayOfSeason : float) : float :=
  let initial := initial (growthStages crop) in
  let development := development (growthStages crop) in
  let midSeason := midSeason (growthStages crop) in
  let lateSeason := lateSeason (growthStages crop) in
  let totalDays := initial + development + midSeason + lateSeason in
  if PrimFloat.ltb dayOfSeason 0 || PrimFloat.ltb totalDays dayOfSeason then
    kcEnd crop
  else if PrimFloat.leb dayOfSeason initial then
    (* Initial stage *)
    kcInitial crop
  else if PrimFloat.leb dayOfSeason (initial + development) then
    (* Development stage *)
    let daysIntoStage := dayOfSeason - initial in
    let progress := daysIntoStage / development in
    kcInitial crop + progress * (kcMid crop - kcInitial crop)
  else if PrimFloat.leb dayOfSeason (initial + development + midSeason) then
    (* Mid-season stage *)
    kcMid crop
  else
    (* Late season stage *)
    let daysIntoLateSeason :=
      dayOfSeason - (initial + development + midSeason) in
    let progress := daysIntoLateSeason / lateSeason in
    kcMid crop + progress * (kcEnd crop - kcMid crop).

Record SeasonalWaterRequirement : Type := mkSeasonalWaterRequirement {
  totalDays : float;
  averageKc : float;
  totalWaterMm : float;
  dailyAverageWaterMm : float
}.

Definition calculateSeasonalWaterRequirement
    (crop : CropData) (averageET0 : float) : SeasonalWaterRequirement :=
  let initial := initial (growthStages crop) in
  let development := development (growthStages crop) in
  let midSeason := midSeason (growthStages crop) in
  let lateSeason := lateSeason (growthStages crop) in
  let totalDays := initial + development + midSeason + lateSeason in
  let avgKcInitial := kcInitial crop in
  let avgKcDevelopment := (kcInitial crop + kcMid crop) / 2 in
  let avgKcMid := kcMid crop in
  let avgKcLate := (kcMid crop + kcEnd crop) / 2 in
  let weightedKc :=
    (avgKcInitial * initial +
     avgKcDevelopment * development +
     avgKcMid * midSeason +
     avgKcLate * lateSeason) / totalDays in
  let totalWaterMm := weightedKc * averageET0 * totalDays in
  let dailyAverageWaterMm := totalWaterMm / totalDays in
  {| totalDays := totalDays;
     averageKc := weightedKc;
     totalWaterMm := totalWaterMm;
     dailyAverageWaterMm := dailyAverageWaterMm |}.

(** The four stage lengths are strictly positive. *)
Definition positiveStages (crop : CropData) : bool :=
  PrimFloat.ltb 0 (initial (growthStages crop)) &&
  PrimFloat.ltb 0 (development (growthStages crop)) &&
  PrimFloat.ltb 0 (midSeason (growthStages crop)) &&
  PrimFloat.ltb 0 (lateSeason (growthStages crop)).

(** The season length, summed as the source sums it. *)
Definition seasonLength (crop : CropData) : float :=
  initial (growthStages crop) + development (growthStages crop) +
  midSeason (growthStages crop) + lateSeason (growthStages crop).

(** The day on which the development stage ends. *)
Definition b2 (crop : CropData) : float :=
  initial (growthStages crop) + development (growthStages crop).

(** The whole days [0, 1, ..., n]. *)
Fixpoint wholeDays (n : nat) (from : float) : list float :=
  match n with
  | O => [from]
  | S m => from :: wholeDays m (from + 1)
  end.

End Float64.

(** * Properties *)

(** ** Boolean comparisons *)

Lemma Rltb_true (x y : R) : Rltb x y = true <-> x < y.
Proof. unfold Rltb; destruct (Rlt_dec x y); split; intros; try easy. Qed.

Lemma Rltb_false (x y : R) : Rltb x y = false <-> y <= x.
Proof.
  unfold Rltb; destruct (Rlt_dec x y); split; intros; try easy; lra.
Qed.

Lemma Rleb_true (x y : R) : Rleb x y = true <-> x <= y.
Proof. unfold Rleb; destruct (Rle_dec x y); split; intros; try easy. Qed.

Lemma Rleb_false (x y : R) : Rleb x y = false <-> y < x.
Proof.
  unfold Rleb; destruct (Rle_dec x y); split; intros; try easy; lra.
Qed.

Lemma Rgtb_true (x y : R) : Rgtb x y = true <-> y < x.
Proof. apply Rltb_true. Qed.

Lemma Rgtb_false (x y : R) : Rgtb x y = false <-> x <= y.
Proof. apply Rltb_false. Qed.

(** ** Evaluating [getKcForDay] branch by branch *)

Ltac kc_tests :=
  repeat match goal with
  | |- context [Rltb ?x ?y] =>
      let H := fresh "T" in
      destruct (Rltb x y) eqn:H;
      [apply Rltb_true in H | apply Rltb_false in H]
  | |- context [Rgtb ?x ?y] =>
      let H := fresh "T" in
      destruct (Rgtb x y) eqn:H;
      [apply Rgtb_true in H | apply Rgtb_false in H]
  | |- context [Rleb ?x ?y] =>
      let H := fresh "T" in
      destruct (Rleb x y) eqn:H;
      [apply Rleb_true in H | apply Rleb_false in H]
  end; cbn [orb].

Ltac kc_unfold :=
  unfold getKcForDay, positiveStages, seasonLength, b3, b2, b1 in *; cbv zeta.

(** Without positive stage lengths the ranges of the specification can
    overlap the earlier tests of the source (a day past [b2] may still be
    [<= initial] when [development] is negative), hence the hypothesis in
    the last three lemmas. *)

Lemma getKcForDay_out_of_range (crop : CropData) (d : R) :
  d < 0 \/ seasonLength crop < d -> getKcForDay crop d = kcEnd crop.
Proof.
  kc_unfold; intros H; kc_tests; try reflexivity; exfalso; lra.
Qed.

Lemma getKcForDay_initial (crop : CropData) (d : R) :
  0 <= d <= seasonLength crop -> d <= b1 crop ->
  getKcForDay crop d = kcInitial crop.
Proof.
  kc_unfold; intros H H1; kc_tests; try reflexivity; exfalso; lra.
Qed.

Lemma getKcForDay_development (crop : CropData) (d : R) :
  0 <= d <= seasonLength crop -> b1 crop < d <= b2 crop ->
  getKcForDay crop d =
  kcInitial crop +
  ((d - b1 crop) / development (growthStages crop)) *
  (kcMid crop - kcInitial crop).
Proof.
  kc_unfold; intros H H1; kc_tests; try reflexivity; exfalso; lra.
Qed.

Lemma getKcForDay_midSeason (crop : CropData) (d : R) :
  positiveStages crop ->
  0 <= d <= seasonLength crop -> b2 crop < d <= b3 crop ->
  getKcForDay crop d = kcMid crop.
Proof.
  kc_unfold; intros Hp H H1; kc_tests; try reflexivity; exfalso; lra.
Qed.

Lemma getKcForDay_lateSeason (crop : CropData) (d : R) :
  positiveStages crop ->
  0 <= d <= seasonLength crop -> b3 crop < d ->
  getKcForDay crop d =
  kcMid crop +
  ((d - b3 crop) / lateSeason (growthStages crop)) *
  (kcEnd crop - kcMid crop).
Proof.
  kc_unfold; intros Hp H H1; kc_tests; try reflexivity; exfalso; lra.
Qed.

(** ** The soybean record, used as the running concrete input *)

Lemma soybeans_positiveStages : positiveStages crop_soybeans.
Proof. unfold positiveStages; cbn; lra. Qed.

Ltac soybeans_stages := exact soybeans_positiveStages.

(** The scenario of the specification: day 20 is five days into the
    25-day development stage, Kc = 0.4 + (5/25) x (1.15 - 0.4) = 0.55. *)
Example getKcForDay_soybeans_20 : getKcForDay crop_soybeans 20 = 0.55.
Proof.
  rewrite getKcForDay_development;
    unfold seasonLength, b3, b2, b1; cbn; lra.
Qed.

Example getKcForDay_soybeans_100 :
  getKcForDay crop_soybeans 100 = 1.15 + (10 / 30) * (0.5 - 1.15).
Proof.
  rewrite getKcForDay_lateSeason;
    [ | soybeans_stages | | ]; unfold seasonLength, b3, b2, b1; cbn; lra.
Qed.

(** ** calculateETc *)

(** C4: [calculateETc et0 kc] is the product [et0 * kc] for all real
    inputs, without validation: a zero on either side gives zero, and
    [calculateETc 5.0 1.15 = 5.75]. *)
Theorem calculateETc_product (et0 kc : R) :
  calculateETc et0 kc = et0 * kc /\
  calculateETc 0 kc = 0 /\
  calculateETc et0 0 = 0 /\
  calculateETc 5.0 1.15 = 5.75.
Proof. unfold calculateETc; repeat split; lra. Qed.

(** ** getKcForDay against the reference definition *)

Lemma seasonLength_total (crop : CropData) :
  seasonLength crop =
  initial (growthStages crop) + development (growthStages crop) +
  midSeason (growthStages crop) + lateSeason (growthStages crop).
Proof. reflexivity. Qed.

Lemma kcReference_getKcForDay (crop : CropData) (d : R) :
  positiveStages crop -> kcReference crop d (getKcForDay crop d).
Proof.
  intros Hp.
  assert (Hb : b1 crop < b2 crop < b3 crop /\ b3 crop < seasonLength crop)
    by (unfold positiveStages, seasonLength, b3, b2, b1 in *; lra).
  destruct (Rlt_dec d 0) as [Hneg | Hneg].
  { rewrite getKcForDay_out_of_range by (left; exact Hneg).
    apply KcOutOfRange; left; exact Hneg. }
  destruct (Rlt_dec (seasonLength crop) d) as [Hpast | Hpast].
  { rewrite getKcForDay_out_of_range by (right; exact Hpast).
    apply KcOutOfRange; right; exact Hpast. }
  assert (Hin : 0 <= d <= seasonLength crop) by lra.
  destruct (Rle_dec d (b1 crop)) as [H1 | H1].
  { rewrite getKcForDay_initial by assumption.
    apply KcInitialStage; lra. }
  destruct (Rle_dec d (b2 crop)) as [H2 | H2].
  { rewrite getKcForDay_development by lra.
    apply KcDevelopmentStage; lra. }
  destruct (Rle_dec d (b3 crop)) as [H3 | H3].
  { rewrite getKcForDay_midSeason by (assumption || lra).
    apply KcMidSeasonStage; lra. }
  rewrite getKcForDay_lateSeason by (assumption || lra).
  apply KcLateSeasonStage; lra.
Qed.

Lemma kcReference_functional (crop : CropData) (d k : R) :
  positiveStages crop -> kcReference crop d k -> k = getKcForDay crop d.
Proof.
  intros Hp Hk.
  assert (Hb : 0 < b1 crop < b2 crop /\ b2 crop < b3 crop < seasonLength crop)
    by (unfold positiveStages, seasonLength, b3, b2, b1 in *; lra).
  destruct Hk as [H | H | H | H | H]; symmetry.
  - apply getKcForDay_out_of_range; destruct H; [left | right]; lra.
  - apply getKcForDay_initial; lra.
  - apply getKcForDay_development; lra.
  - apply getKcForDay_midSeason; (assumption || lra).
  - apply getKcForDay_lateSeason; (assumption || lra).
Qed.

(** In double arithmetic the late-season ramp need not end on [kcEnd]:
    on the last day of the cassava record (day 210) the source computes
    [0.8 + 1 * (0.3 - 0.8)], which rounds to 0.30000000000000004. *)
Lemma cassava_last_day_is_not_kcEnd :
  Float64.positiveStages Float64.crop_cassava = true /\
  Float64.seasonLength Float64.crop_cassava = 210%float /\
  Float64.getKcForDay Float64.crop_cassava 210 = 0.30000000000000004%float /\
  Float64.kcEnd Float64.crop_cassava = 0.3%float /\
  PrimFloat.eqb
    (Float64.getKcForDay Float64.crop_cassava
       (Float64.seasonLength Float64.crop_cassava))
    (Float64.kcEnd Float64.crop_cassava) = false /\
  Float64.getKcForDay Float64.crop_cassava
    (Float64.seasonLength Float64.crop_cassava) <>
  Float64.kcEnd Float64.crop_cassava.
Proof.
  repeat split; try (vm_compute; reflexivity).
  intros H.
  assert (E : PrimFloat.eqb
                (Float64.getKcForDay Float64.crop_cassava
                   (Float64.seasonLength Float64.crop_cassava))
                (Float64.kcEnd Float64.crop_cassava) = false)
    by (vm_compute; reflexivity).
  rewrite H in E; vm_compute in E; discriminate E.
Qed.

(** On the shipped catalog, in double arithmetic: every record returns
    [kcInitial] at [b1] and [kcMid] at [b2] and at [b3]; cassava is the
    one record whose last day does not return [kcEnd]. *)
Example shipped_catalog_boundaries_in_doubles :
  forallb
    (fun crop =>
       let g := Float64.growthStages crop in
       let b1 := Float64.initial g in
       let b3 := (Float64.b2 crop + Float64.midSeason g)%float in
       PrimFloat.eqb (Float64.getKcForDay crop b1) (Float64.kcInitial crop) &&
       PrimFloat.eqb (Float64.getKcForDay crop (Float64.b2 crop))
         (Float64.kcMid crop) &&
       PrimFloat.eqb (Float64.getKcForDay crop b3) (Float64.kcMid crop))
    Float64.BRAZILIAN_CROPS = true /\
  map Float64.id
    (filter
       (fun crop =>
          negb (PrimFloat.eqb
                  (Float64.getKcForDay crop (Float64.seasonLength crop))
                  (Float64.kcEnd crop)))
       Float64.BRAZILIAN_CROPS) = ["cassava"%string].
Proof. split; vm_compute; reflexivity. Qed.

(** C1 (amended): for a crop with strictly positive stage lengths and any
    real day, [getKcForDay] is the value the reference piecewise
    definition assigns (out of range: [kcEnd]; initial stage:
    [kcInitial]; development: the ramp from [kcInitial] to [kcMid];
    mid-season: [kcMid]; late season: the ramp from [kcMid] to [kcEnd]),
    and that value is the only one.  At the boundaries, [b1] gives
    [kcInitial] and [b3] gives [kcMid]; the last day gives the late-season
    ramp expression [kcMid + ((totalDays - b3) / lateSeason) * (kcEnd -
    kcMid)], which is [kcEnd] in exact real arithmetic (in double
    arithmetic it can differ from [kcEnd] by rounding, see
    [cassava_last_day_is_not_kcEnd]).  The function is total: every day
    has a value. *)
Theorem getKcForDay_reference (crop : CropData) (d : R) :
  positiveStages crop ->
  (forall k, kcReference crop d k <-> k = getKcForDay crop d) /\
  getKcForDay crop (b1 crop) = kcInitial crop /\
  getKcForDay crop (b3 crop) = kcMid crop /\
  getKcForDay crop (seasonLength crop) =
    kcMid crop +
    ((seasonLength crop - b3 crop) / lateSeason (growthStages crop)) *
    (kcEnd crop - kcMid crop) /\
  kcMid crop +
  ((seasonLength crop - b3 crop) / lateSeason (growthStages crop)) *
  (kcEnd crop - kcMid crop) = kcEnd crop.
Proof.
  intros Hp.
  assert (Hb : 0 < b1 crop < b2 crop /\ b2 crop < b3 crop < seasonLength crop)
    by (unfold positiveStages, seasonLength, b3, b2, b1 in *; lra).
  split; [ | split; [ | split; [ | split ] ] ].
  - intros k; split.
    + apply kcReference_functional; exact Hp.
    + intros ->; apply kcReference_getKcForDay; exact Hp.
  - apply getKcForDay_initial; lra.
  - apply getKcForDay_midSeason; (assumption || lra).
  - apply getKcForDay_lateSeason; (assumption || lra).
  - replace (seasonLength crop - b3 crop) with (lateSeason (growthStages crop))
      by (unfold seasonLength; lra).
    unfold positiveStages in Hp.
    field; lra.
Qed.

Lemma getKcForDay_reference_witness :
  positiveStages crop_soybeans /\
  ((forall k, kcReference crop_soybeans 20 k <->
              k = getKcForDay crop_soybeans 20) /\
   getKcForDay crop_soybeans (b1 crop_soybeans) = kcInitial crop_soybeans /\
   getKcForDay crop_soybeans (b3 crop_soybeans) = kcMid crop_soybeans /\
   getKcForDay crop_soybeans (seasonLength crop_soybeans) =
     kcMid crop_soybeans +
     ((seasonLength crop_soybeans - b3 crop_soybeans) /
        lateSeason (growthStages crop_soybeans)) *
     (kcEnd crop_soybeans - kcMid crop_soybeans) /\
   kcMid crop_soybeans +
   ((seasonLength crop_soybeans - b3 crop_soybeans) /
      lateSeason (growthStages crop_soybeans)) *
   (kcEnd crop_soybeans - kcMid crop_soybeans) = kcEnd crop_soybeans).
Proof.
  split;
    [ exact soybeans_positiveStages
    | exact (getKcForDay_reference crop_soybeans 20 soybeans_positiveStages) ].
Defined.

(** ** calculateSeasonalWaterRequirement *)

(** C2: for a crop with strictly positive stage lengths, the returned
    record has [totalDays] the sum of the four stage lengths,
    [averageKc] the duration-weighted mean of the per-stage averages,
    [totalWaterMm = averageKc * averageET0 * totalDays] and
    [dailyAverageWaterMm = totalWaterMm / totalDays]. *)
Theorem calculateSeasonalWaterRequirement_fields
    (crop : CropData) (averageET0 : R) :
  positiveStages crop ->
  let r := calculateSeasonalWaterRequirement crop averageET0 in
  let g := growthStages crop in
  totalDays r = initial g + development g + midSeason g + lateSeason g /\
  averageKc r =
    (kcInitial crop * initial g +
     ((kcInitial crop + kcMid crop) / 2) * development g +
     kcMid crop * midSeason g +
     ((kcMid crop + kcEnd crop) / 2) * lateSeason g) / totalDays r /\
  totalWaterMm r = averageKc r * averageET0 * totalDays r /\
  dailyAverageWaterMm r = totalWaterMm r / totalDays r.
Proof.
  intros _; cbv zeta; unfold calculateSeasonalWaterRequirement; cbn.
  repeat split; reflexivity.
Qed.

Lemma calculateSeasonalWaterRequirement_fields_witness :
  positiveStages crop_soybeans /\
  totalDays (calculateSeasonalWaterRequirement crop_soybeans 5) =
  15 + 25 + 50 + 30.
Proof.
  split; [ exact soybeans_positiveStages | ].
  exact (proj1 (calculateSeasonalWaterRequirement_fields
                  crop_soybeans 5 soybeans_positiveStages)).
Defined.

Lemma totalDays_positive (crop : CropData) (averageET0 : R) :
  positiveStages crop ->
  0 < totalDays (calculateSeasonalWaterRequirement crop averageET0).
Proof. unfold positiveStages; cbn; lra. Qed.

(** C10: for a crop with strictly positive stage lengths,
    [dailyAverageWaterMm = averageKc * averageET0]: the daily figure is
    the season-average Kc scaled by the supplied ET0. *)
Theorem dailyAverageWaterMm_is_averageKc_times_ET0
    (crop : CropData) (averageET0 : R) :
  positiveStages crop ->
  let r := calculateSeasonalWaterRequirement crop averageET0 in
  dailyAverageWaterMm r = averageKc r * averageET0.
Proof.
  intros Hp r.
  pose proof (totalDays_positive crop averageET0 Hp) as Ht.
  change (averageKc r * averageET0 * totalDays r / totalDays r =
          averageKc r * averageET0).
  fold r in Ht; field; lra.
Qed.

Lemma dailyAverageWaterMm_is_averageKc_times_ET0_witness :
  positiveStages crop_soybeans /\
  dailyAverageWaterMm (calculateSeasonalWaterRequirement crop_soybeans 5) =
  averageKc (calculateSeasonalWaterRequirement crop_soybeans 5) * 5.
Proof.
  split; [ exact soybeans_positiveStages | ].
  exact (dailyAverageWaterMm_is_averageKc_times_ET0
           crop_soybeans 5 soybeans_positiveStages).
Defined.

(** ** Ramps: range and monotonicity *)

Lemma progress_range (x len : R) :
  0 < len -> 0 <= x <= len -> 0 <= x / len <= 1.
Proof.
  intros Hlen [H0 H1].
  pose proof (Rinv_0_lt_compat len Hlen) as Hinv.
  unfold Rdiv; split.
  - apply Rmult_le_pos; lra.
  - replace 1 with (len * / len) by (field; lra).
    apply Rmult_le_compat_r; lra.
Qed.

Lemma progress_monotone (x y len : R) :
  0 < len -> x <= y -> x / len <= y / len.
Proof.
  intros Hlen Hxy.
  pose proof (Rinv_0_lt_compat len Hlen) as Hinv.
  unfold Rdiv; apply Rmult_le_compat_r; lra.
Qed.

Lemma ramp_between (a b t : R) :
  0 <= t <= 1 -> Rmin a b <= a + t * (b - a) <= Rmax a b.
Proof.
  intros [H0 H1].
  destruct (Rle_dec a b) as [Hab | Hab].
  - rewrite Rmin_left, Rmax_right by lra; nra.
  - rewrite Rmin_right, Rmax_left by lra; nra.
Qed.

Lemma ramp_nondecreasing (a b s t : R) :
  a <= b -> s <= t -> a + s * (b - a) <= a + t * (b - a).
Proof. intros Hab Hst; nra. Qed.

Lemma ramp_nonincreasing (a b s t : R) :
  b <= a -> s <= t -> a + t * (b - a) <= a + s * (b - a).
Proof. intros Hab Hst; nra. Qed.

(** C5: for a crop with strictly positive stage lengths, [getKcForDay]
    is non-decreasing over the development stage when
    [kcMid > kcInitial]; over the late-season stage it is non-decreasing
    when [kcEnd >= kcMid] and non-increasing when [kcEnd <= kcMid]. *)
Theorem getKcForDay_monotone (crop : CropData) (x y : R) :
  positiveStages crop ->
  x <= y ->
  (kcMid crop > kcInitial crop ->
   b1 crop < x -> y <= b2 crop ->
   getKcForDay crop x <= getKcForDay crop y) /\
  (b3 crop < x -> y <= seasonLength crop ->
   (kcEnd crop >= kcMid crop ->
    getKcForDay crop x <= getKcForDay crop y) /\
   (kcEnd crop <= kcMid crop ->
    getKcForDay crop y <= getKcForDay crop x)).
Proof.
  intros Hp Hxy.
  assert (Hb : 0 < b1 crop < b2 crop /\ b2 crop < b3 crop < seasonLength crop)
    by (unfold positiveStages, seasonLength, b3, b2, b1 in *; lra).
  destruct Hp as (Hi & Hd & Hm & Hl).
  assert (Hp : positiveStages crop) by (unfold positiveStages; tauto).
  split.
  - intros Hk Hx Hy.
    rewrite !getKcForDay_development by lra.
    apply ramp_nondecreasing; [lra | ].
    apply progress_monotone; lra.
  - intros Hx Hy.
    rewrite !getKcForDay_lateSeason by (assumption || lra).
    split; intros Hk.
    + apply ramp_nondecreasing; [lra | ].
      apply progress_monotone; lra.
    + apply ramp_nonincreasing; [lra | ].
      apply progress_monotone; lra.
Qed.

Lemma getKcForDay_monotone_witness :
  (positiveStages crop_soybeans /\ 20 <= 30) /\
  (kcMid crop_soybeans > kcInitial crop_soybeans ->
   b1 crop_soybeans < 20 -> 30 <= b2 crop_soybeans ->
   getKcForDay crop_soybeans 20 <= getKcForDay crop_soybeans 30) /\
  (b3 crop_soybeans < 20 -> 30 <= seasonLength crop_soybeans ->
   (kcEnd crop_soybeans >= kcMid crop_soybeans ->
    getKcForDay crop_soybeans 20 <= getKcForDay crop_soybeans 30) /\
   (kcEnd crop_soybeans <= kcMid crop_soybeans ->
    getKcForDay crop_soybeans 30 <= getKcForDay crop_soybeans 20)).
Proof.
  assert (H : 20 <= 30) by lra.
  split;
    [ split; [ exact soybeans_positiveStages | exact H ]
    | exact (getKcForDay_monotone crop_soybeans 20 30
               soybeans_positiveStages H) ].
Defined.

(** The ramps really move on the soybean record: up through the
    development stage, down through the late season. *)
Example getKcForDay_soybeans_rises :
  getKcForDay crop_soybeans 20 < getKcForDay crop_soybeans 30.
Proof.
  rewrite !getKcForDay_development;
    unfold seasonLength, b3, b2, b1; cbn; lra.
Qed.

Example getKcForDay_soybeans_falls :
  getKcForDay crop_soybeans 110 < getKcForDay crop_soybeans 100.
Proof.
  rewrite !getKcForDay_lateSeason;
    try soybeans_stages; unfold seasonLength, b3, b2, b1; cbn; lra.
Qed.

(** In double arithmetic a ramp can end above the coefficient it leads
    to: with the coefficients 0.3/0.9/0.5 and the stages 15/25/50/30 the
    source computes [0.3 + 1 * (0.9 - 0.3)] at day 40, which rounds to
    0.9000000000000001, above all three coefficients. *)
Lemma ramp_end_exceeds_maximum :
  let crop := Float64.customCrop 0.3 0.9 0.5 Float64.soybeanStages in
  Float64.positiveStages crop = true /\
  Float64.getKcForDay crop 40 = 0.9000000000000001%float /\
  PrimFloat.ltb (Float64.kcInitial crop) (Float64.getKcForDay crop 40) = true /\
  PrimFloat.ltb (Float64.kcMid crop) (Float64.getKcForDay crop 40) = true /\
  PrimFloat.ltb (Float64.kcEnd crop) (Float64.getKcForDay crop 40) = true.
Proof. vm_compute; repeat split. Qed.

(** On the shipped catalog, in double arithmetic, the bound holds on
    every whole day of every season. *)
Example shipped_catalog_in_range_on_whole_days :
  forallb
    (fun crop =>
       forallb
         (fun d =>
            let k := Float64.getKcForDay crop d in
            (PrimFloat.leb (Float64.kcInitial crop) k ||
             PrimFloat.leb (Float64.kcMid crop) k ||
             PrimFloat.leb (Float64.kcEnd crop) k) &&
            (PrimFloat.leb k (Float64.kcInitial crop) ||
             PrimFloat.leb k (Float64.kcMid crop) ||
             PrimFloat.leb k (Float64.kcEnd crop)))
         (Float64.wholeDays 410 0))
    Float64.BRAZILIAN_CROPS = true.
Proof. vm_compute; reflexivity. Qed.

(** C9 (amended): in exact real arithmetic, for a crop with strictly
    positive stage lengths and any real day, in or out of the season,
    [getKcForDay] lies between the least and the greatest of the three
    coefficients (in double arithmetic a ramp value can pass the bound by
    rounding, see [ramp_end_exceeds_maximum]). *)
Theorem getKcForDay_bounds (crop : CropData) (d : R) :
  positiveStages crop ->
  Rmin (Rmin (kcInitial crop) (kcMid crop)) (kcEnd crop)
    <= getKcForDay crop d
    <= Rmax (Rmax (kcInitial crop) (kcMid crop)) (kcEnd crop).
Proof.
  intros Hp.
  pose proof (kcReference_getKcForDay crop d Hp) as Hk.
  pose (kI := kcInitial crop); pose (kM := kcMid crop);
    pose (kE := kcEnd crop).
  pose proof (Rmin_l (Rmin kI kM) kE) as L1.
  pose proof (Rmin_r (Rmin kI kM) kE) as L2.
  pose proof (Rmin_l kI kM) as L3.
  pose proof (Rmin_r kI kM) as L4.
  pose proof (Rmax_l (Rmax kI kM) kE) as U1.
  pose proof (Rmax_r (Rmax kI kM) kE) as U2.
  pose proof (Rmax_l kI kM) as U3.
  pose proof (Rmax_r kI kM) as U4.
  subst kI kM kE.
  destruct Hp as (Hi & Hd & Hm & Hl).
  destruct Hk as [H | H | H | H | H].
  - lra.
  - lra.
  - pose proof (ramp_between (kcInitial crop) (kcMid crop)
                  ((d - b1 crop) / development (growthStages crop))) as Hr.
    assert (Ht : 0 <= (d - b1 crop) / development (growthStages crop) <= 1)
      by (apply progress_range; unfold b2 in H; lra).
    specialize (Hr Ht); lra.
  - lra.
  - pose proof (ramp_between (kcMid crop) (kcEnd crop)
                  ((d - b3 crop) / lateSeason (growthStages crop))) as Hr.
    assert (Ht : 0 <= (d - b3 crop) / lateSeason (growthStages crop) <= 1)
      by (apply progress_range; unfold seasonLength in H; lra).
    specialize (Hr Ht).
    destruct (Rle_dec (kcMid crop) (kcEnd crop));
      [ rewrite Rmin_left, Rmax_right in Hr by lra
      | rewrite Rmin_right, Rmax_left in Hr by lra ]; lra.
Qed.

Lemma getKcForDay_bounds_witness :
  positiveStages crop_soybeans /\
  Rmin (Rmin (kcInitial crop_soybeans) (kcMid crop_soybeans))
       (kcEnd crop_soybeans)
    <= getKcForDay crop_soybeans 100
    <= Rmax (Rmax (kcInitial crop_soybeans) (kcMid crop_soybeans))
            (kcEnd crop_soybeans).
Proof.
  split;
    [ exact soybeans_positiveStages
    | exact (getKcForDay_bounds crop_soybeans 100 soybeans_positiveStages) ].
Defined.

(** ** Integrals of affine pieces *)










Lemma IntegralOn_unique (f : R -> R) (a b u v : R) :
  IntegralOn f a b u -> IntegralOn f a b v -> u = v.
Proof.
  intros [pr1 H1] [pr2 H2]; rewrite <- H1, <- H2; apply RiemannInt_P5.
Qed.

(** ** The integral of the Kc curve, stage by stage *)

Section KcCurve.

Variable crop : CropData.
Hypothesis stages : positiveStages crop.

Let kI := kcInitial crop.
Let kM := kcMid crop.
Let kE := kcEnd crop.
Let dev := development (growthStages crop).
Let late := lateSeason (growthStages crop).







End KcCurve.



(** ** Catalog queries *)

Lemma getCropById_in_Some (catalog : list CropData) (id0 : string)
    (crop : CropData) :
  getCropById_in catalog id0 = Some crop ->
  In crop catalog /\ id crop = id0.
Proof.
  unfold getCropById_in; intros H.
  apply find_some in H; destruct H as [Hin Heq].
  split; [exact Hin | apply String.eqb_eq; exact Heq].
Qed.

Lemma getCropById_in_None (catalog : list CropData) (id0 : string) :
  getCropById_in catalog id0 = None <->
  (forall crop, In crop catalog -> id crop <> id0).
Proof.
  unfold getCropById_in; split.
  - intros H crop Hin Heq.
    pose proof (find_none _ _ H crop Hin) as Hf; cbn in Hf.
    apply String.eqb_neq in Hf; contradiction.
  - intros H.
    destruct (find (fun crop => String.eqb (id crop) id0) catalog)
      as [crop | ] eqn:Hfind; [ | reflexivity ].
    apply find_some in Hfind; destruct Hfind as [Hin Heq].
    apply String.eqb_eq in Heq; exfalso; exact (H crop Hin Heq).
Qed.

(** The lookups of the test-suite. *)
Example getCropById_soybeans : getCropById "soybeans" = Some crop_soybeans.
Proof. reflexivity. Qed.

Example getCropById_invalid : getCropById "invalid-crop-id" = None.
Proof. reflexivity. Qed.

Example getCropsByCategory_nonexistent : getCropsByCategory "Nonexistent" = [].
Proof. reflexivity. Qed.

(** C7: [getCropById id0] returns a record of the catalog whose [id]
    is exactly [id0] when some catalog entry has that id, and the absent
    result [None] (the source's [undefined], a value and not an
    exception) when no entry has it. *)
Theorem getCropById_found_or_absent (id0 : string) :
  ((exists crop, In crop BRAZILIAN_CROPS /\ id crop = id0) ->
   exists found,
     getCropById id0 = Some found /\
     In found BRAZILIAN_CROPS /\ id found = id0) /\
  ((forall crop, In crop BRAZILIAN_CROPS -> id crop <> id0) ->
   getCropById id0 = None).
Proof.
  unfold getCropById; split.
  - intros [crop [Hin Heq]].
    destruct (getCropById_in BRAZILIAN_CROPS id0) as [found | ] eqn:Hfind.
    + exists found; split; [reflexivity | ].
      apply getCropById_in_Some; exact Hfind.
    + exfalso.
      exact (proj1 (getCropById_in_None BRAZILIAN_CROPS id0) Hfind
               crop Hin Heq).
  - apply getCropById_in_None.
Qed.

Lemma getCropById_found_or_absent_witness :
  (exists crop, In crop BRAZILIAN_CROPS /\ id crop = "coffee"%string) /\
  (exists found,
     getCropById "coffee" = Some found /\
     In found BRAZILIAN_CROPS /\ id found = "coffee"%string).
Proof.
  assert (H : exists crop,
             In crop BRAZILIAN_CROPS /\ id crop = "coffee"%string).
  { exists crop_coffee; split; [cbn; tauto | reflexivity]. }
  split;
    [ exact H
    | exact (proj1 (getCropById_found_or_absent "coffee") H) ].
Defined.

(** C6: [getAllCategories] is the list of the eight declared labels in
    declaration order; it is computed from [CROP_CATEGORIES] alone, so
    the answer is the same whatever array of crops the module holds. *)
Theorem getAllCategories_declared :
  getAllCategories =
    [ "Grains & Cereals"; "Legumes & Pulses"; "Fiber Crops"; "Sugar Crops";
      "Beverage Crops"; "Fruits"; "Vegetables"; "Oilseeds" ]%string /\
  List.length getAllCategories = 8%nat /\
  (forall catalog : list CropData,
     fst (perform catalog CallGetAllCategories) =
     OutLabels
       [ "Grains & Cereals"; "Legumes & Pulses"; "Fiber Crops";
         "Sugar Crops"; "Beverage Crops"; "Fruits"; "Vegetables";
         "Oilseeds" ]%string).
Proof. repeat split. Qed.

(** ** The catalog invariant *)

Lemma perform_keeps_catalog (catalog : list CropData) (c : Call) :
  snd (perform catalog c) = catalog.
Proof. destruct c; reflexivity. Qed.

Lemma performAll_keeps_catalog (calls : list Call) :
  forall catalog, performAll catalog calls = catalog.
Proof.
  induction calls as [ | c rest IH]; intros catalog; cbn [performAll].
  - reflexivity.
  - rewrite perform_keeps_catalog; apply IH.
Qed.

Lemma perform_reads_BRAZILIAN_CROPS :
  (forall id0,
     fst (perform BRAZILIAN_CROPS (CallGetCropById id0)) =
     OutCrop (getCropById id0)) /\
  (forall category0,
     fst (perform BRAZILIAN_CROPS (CallGetCropsByCategory category0)) =
     OutCrops (getCropsByCategory category0)).
Proof. split; reflexivity. Qed.

(** C8: every record of [BRAZILIAN_CROPS] has four strictly positive
    stage lengths and three coefficients in (0, 1.5]; and whatever
    sequence of operations is run, the array they leave is
    [BRAZILIAN_CROPS] itself. *)
Theorem BRAZILIAN_CROPS_invariant :
  Forall cropInvariant BRAZILIAN_CROPS /\
  (forall calls : list Call,
     performAll BRAZILIAN_CROPS calls = BRAZILIAN_CROPS).
Proof.
  split.
  - unfold BRAZILIAN_CROPS.
    repeat (apply Forall_cons;
            [ unfold cropInvariant, positiveStages, kcInRange; cbn; lra | ]).
    apply Forall_nil.
  - intros calls; apply performAll_keeps_catalog.
Qed.

(** * Further properties of the crop database *)

(** ** Categories and lookups *)

Lemma getCropsByCategory_In (c : string) (crop : CropData) :
  In crop (getCropsByCategory c) <->
  In crop BRAZILIAN_CROPS /\ category crop = c.
Proof.
  unfold getCropsByCategory, getCropsByCategory_in.
  rewrite filter_In, String.eqb_eq; reflexivity.
Qed.

(** X1: [getCropsByCategory c] holds exactly the catalog records whose
    category is [c], and it is the empty list exactly when no record
    carries that category (an unknown label is not an error). *)
Theorem getCropsByCategory_members (c : string) :
  (forall crop,
     In crop (getCropsByCategory c) <->
     In crop BRAZILIAN_CROPS /\ category crop = c) /\
  (getCropsByCategory c = [] <->
   forall crop, In crop BRAZILIAN_CROPS -> category crop <> c).
Proof.
  split; [intros crop; apply getCropsByCategory_In | split].
  - intros Hnil crop Hin Hc.
    assert (Hf : In crop (getCropsByCategory c))
      by (apply getCropsByCategory_In; split; assumption).
    rewrite Hnil in Hf; exact Hf.
  - intros Hnone.
    destruct (getCropsByCategory c) as [ | crop rest] eqn:Hf;
      [reflexivity | exfalso].
    assert (Hin : In crop (getCropsByCategory c))
      by (rewrite Hf; left; reflexivity).
    apply getCropsByCategory_In in Hin.
    exact (Hnone crop (proj1 Hin) (proj2 Hin)).
Qed.

Lemma catalog_categories_declared :
  Forall (fun crop => In (category crop) getAllCategories) BRAZILIAN_CROPS.
Proof.
  unfold BRAZILIAN_CROPS.
  repeat (apply Forall_cons; [cbn; tauto | ]).
  apply Forall_nil.
Qed.

(** X2: the category chips of the crops screen split the catalog: with
    no selection the list is the whole catalog; every label of
    [getAllCategories] selects a non-empty list of catalog records, all of
    that category; and every catalog record is listed under the chip of
    its own category. *)
Theorem filteredCrops_chips :
  filteredCrops None = BRAZILIAN_CROPS /\
  filteredCrops (Some EmptyString) = BRAZILIAN_CROPS /\
  (forall c, In c getAllCategories ->
     filteredCrops (Some c) <> [] /\
     (forall crop, In crop (filteredCrops (Some c)) ->
        In crop BRAZILIAN_CROPS /\ category crop = c)) /\
  (forall crop, In crop BRAZILIAN_CROPS ->
     In (category crop) getAllCategories /\
     In crop (filteredCrops (Some (category crop)))).
Proof.
  split; [reflexivity | split; [reflexivity | split]].
  - intros c Hc.
    assert (Hlabel : filteredCrops (Some c) = getCropsByCategory c).
    { cbn in Hc.
      repeat (destruct Hc as [<- | Hc]; [reflexivity | ]); contradiction. }
    rewrite Hlabel; split.
    + cbn in Hc.
      repeat (destruct Hc as [<- | Hc]; [cbn; discriminate | ]);
        contradiction.
    + intros crop Hin.
      apply getCropsByCategory_In; exact Hin.
  - intros crop Hin.
    pose proof (proj1 (Forall_forall _ _) catalog_categories_declared
                  crop Hin) as Hdecl.
    split; [exact Hdecl | ].
    assert (Hlabel : filteredCrops (Some (category crop)) =
                     getCropsByCategory (category crop)).
    { cbn in Hdecl.
      repeat (destruct Hdecl as [<- | Hdecl]; [reflexivity | ]);
        contradiction. }
    rewrite Hlabel.
    apply getCropsByCategory_In.
    split; [exact Hin | reflexivity].
Qed.

Lemma catalog_ids_distinct : NoDup (map id BRAZILIAN_CROPS).
Proof.
  cbn.
  repeat (apply NoDup_cons;
          [cbn; intros H; repeat (destruct H as [H | H]; [discriminate H | ]);
           exact H | ]).
  apply NoDup_nil.
Qed.

Lemma getCropById_in_own_id (catalog : list CropData) (crop : CropData) :
  NoDup (map id catalog) -> In crop catalog ->
  getCropById_in catalog (id crop) = Some crop.
Proof.
  unfold getCropById_in.
  induction catalog as [ | first rest IH]; intros Hnd Hin; [destruct Hin | ].
  cbn [map] in Hnd; apply NoDup_cons_iff in Hnd; destruct Hnd as [Hfresh Hnd].
  cbn [find].
  destruct Hin as [-> | Hin].
  - rewrite String.eqb_refl; reflexivity.
  - destruct (String.eqb (id first) (id crop)) eqn:Heq.
    + apply String.eqb_eq in Heq.
      exfalso; apply Hfresh; rewrite Heq; apply in_map; exact Hin.
    + apply IH; assumption.
Qed.

(** X3: looking a catalog record up by its own id gives back that very
    record (ids are unique in the catalog), and it is then listed by
    [getCropsByCategory] under its category. *)
Theorem getCropById_own_id (crop : CropData) :
  In crop BRAZILIAN_CROPS ->
  getCropById (id crop) = Some crop /\
  In crop (getCropsByCategory (category crop)).
Proof.
  intros Hin; split.
  - apply getCropById_in_own_id; [exact catalog_ids_distinct | exact Hin].
  - apply getCropsByCategory_In; split; [exact Hin | reflexivity].
Qed.

Lemma getCropById_own_id_witness :
  In crop_cotton BRAZILIAN_CROPS /\
  getCropById (id crop_cotton) = Some crop_cotton /\
  In crop_cotton (getCropsByCategory (category crop_cotton)).
Proof.
  assert (H : In crop_cotton BRAZILIAN_CROPS) by (cbn; tauto).
  split; [exact H | exact (getCropById_own_id crop_cotton H)].
Defined.

(** ** The season-average coefficient and the seasonal total *)

Lemma weighted_sum_between (lo hi kI kM kE i d m l : R) :
  0 < i -> 0 < d -> 0 < m -> 0 < l ->
  lo <= kI <= hi -> lo <= kM <= hi -> lo <= kE <= hi ->
  lo * (i + d + m + l)
    <= kI * i + (kI + kM) / 2 * d + kM * m + (kM + kE) / 2 * l
    <= hi * (i + d + m + l).
Proof. intros; split; nra. Qed.

Lemma averageKc_times_totalDays (crop : CropData) (averageET0 : R) :
  positiveStages crop ->
  let r := calculateSeasonalWaterRequirement crop averageET0 in
  averageKc r * totalDays r =
  kcInitial crop * initial (growthStages crop) +
  (kcInitial crop + kcMid crop) / 2 * development (growthStages crop) +
  kcMid crop * midSeason (growthStages crop) +
  (kcMid crop + kcEnd crop) / 2 * lateSeason (growthStages crop).
Proof.
  intros Hp r.
  pose proof (totalDays_positive crop averageET0 Hp) as Ht; fold r in Ht.
  change (averageKc r) with
    ((kcInitial crop * initial (growthStages crop) +
      (kcInitial crop + kcMid crop) / 2 * development (growthStages crop) +
      kcMid crop * midSeason (growthStages crop) +
      (kcMid crop + kcEnd crop) / 2 * lateSeason (growthStages crop)) /
     totalDays r).
  field; lra.
Qed.

Lemma averageKc_between (crop : CropData) (averageET0 lo hi : R) :
  positiveStages crop ->
  lo <= kcInitial crop <= hi ->
  lo <= kcMid crop <= hi ->
  lo <= kcEnd crop <= hi ->
  lo <= averageKc (calculateSeasonalWaterRequirement crop averageET0) <= hi.
Proof.
  intros Hp HI HM HE.
  pose proof (totalDays_positive crop averageET0 Hp) as Ht.
  pose proof (averageKc_times_totalDays crop averageET0 Hp) as Hs.
  cbv zeta in Hs.
  destruct Hp as (Hi & Hd & Hm & Hl).
  pose proof (weighted_sum_between lo hi _ _ _ _ _ _ _ Hi Hd Hm Hl HI HM HE)
    as [Hlo Hhi].
  rewrite <- Hs in Hlo, Hhi.
  change (initial (growthStages crop) + development (growthStages crop) +
          midSeason (growthStages crop) + lateSeason (growthStages crop))
    with (totalDays (calculateSeasonalWaterRequirement crop averageET0))
    in Hlo, Hhi.
  split; eapply Rmult_le_reg_r; eauto.
Qed.

Lemma averageKc_bounds_exact (crop : CropData) (averageET0 : R) :
  positiveStages crop ->
  Rmin (Rmin (kcInitial crop) (kcMid crop)) (kcEnd crop)
    <= averageKc (calculateSeasonalWaterRequirement crop averageET0)
    <= Rmax (Rmax (kcInitial crop) (kcMid crop)) (kcEnd crop).
Proof.
  intros Hp.
  pose proof (Rmin_l (Rmin (kcInitial crop) (kcMid crop)) (kcEnd crop)).
  pose proof (Rmin_r (Rmin (kcInitial crop) (kcMid crop)) (kcEnd crop)).
  pose proof (Rmin_l (kcInitial crop) (kcMid crop)).
  pose proof (Rmin_r (kcInitial crop) (kcMid crop)).
  pose proof (Rmax_l (Rmax (kcInitial crop) (kcMid crop)) (kcEnd crop)).
  pose proof (Rmax_r (Rmax (kcInitial crop) (kcMid crop)) (kcEnd crop)).
  pose proof (Rmax_l (kcInitial crop) (kcMid crop)).
  pose proof (Rmax_r (kcInitial crop) (kcMid crop)).
  apply averageKc_between; [exact Hp | lra | lra | lra].
Qed.

(** X4: in exact real arithmetic, for a crop with strictly positive
    stage lengths the season-average Kc lies between the least and the
    greatest of the three coefficients.  In double arithmetic the source
    can pass the bound by rounding: with the three coefficients equal to
    0.03 and the stages 15/25/50/30 it returns an [averageKc] of
    0.030000000000000002, above 0.03. *)
Theorem averageKc_bounds :
  (forall (crop : CropData) (averageET0 : R),
     positiveStages crop ->
     Rmin (Rmin (kcInitial crop) (kcMid crop)) (kcEnd crop)
       <= averageKc (calculateSeasonalWaterRequirement crop averageET0)
       <= Rmax (Rmax (kcInitial crop) (kcMid crop)) (kcEnd crop)) /\
  (let crop := Float64.customCrop 0.03 0.03 0.03 Float64.soybeanStages in
   let r := Float64.calculateSeasonalWaterRequirement crop 5 in
   Float64.positiveStages crop = true /\
   Float64.averageKc r = 0.030000000000000002%float /\
   PrimFloat.ltb 0.03 (Float64.averageKc r) = true).
Proof.
  split; [exact averageKc_bounds_exact | vm_compute; repeat split].
Qed.


Lemma averageKc_bounds_witness :
  positiveStages crop_soybeans /\
  Rmin (Rmin (kcInitial crop_soybeans) (kcMid crop_soybeans))
       (kcEnd crop_soybeans)
    <= averageKc (calculateSeasonalWaterRequirement crop_soybeans 5)
    <= Rmax (Rmax (kcInitial crop_soybeans) (kcMid crop_soybeans))
            (kcEnd crop_soybeans).
Proof.
  split;
    [ exact soybeans_positiveStages
    | exact (proj1 averageKc_bounds crop_soybeans 5 soybeans_positiveStages) ].
Defined.

Lemma totalWaterMm_linear_exact (crop : CropData) (e1 e2 k : R) :
  positiveStages crop ->
  totalWaterMm (calculateSeasonalWaterRequirement crop (e1 + e2)) =
    totalWaterMm (calculateSeasonalWaterRequirement crop e1) +
    totalWaterMm (calculateSeasonalWaterRequirement crop e2) /\
  totalWaterMm (calculateSeasonalWaterRequirement crop (k * e1)) =
    k * totalWaterMm (calculateSeasonalWaterRequirement crop e1) /\
  averageKc (calculateSeasonalWaterRequirement crop e1) =
    averageKc (calculateSeasonalWaterRequirement crop e2) /\
  totalDays (calculateSeasonalWaterRequirement crop e1) =
    totalDays (calculateSeasonalWaterRequirement crop e2).
Proof.
  intros _; unfold calculateSeasonalWaterRequirement; cbn.
  repeat split; ring.
Qed.

(** X5: in exact real arithmetic, for a crop with strictly positive
    stage lengths the seasonal total is linear in the supplied ET0
    (additive and homogeneous), while [totalDays] and [averageKc] do not
    depend on it.  In double arithmetic the source is linear only up to
    rounding: for the corn record, ET0 0.1 and the factor 3 it returns
    31.050000000000004 for the scaled ET0, and 3 times its result for
    ET0 0.1 is 31.049999999999997. *)
Theorem totalWaterMm_linear :
  (forall (crop : CropData) (e1 e2 k : R),
     positiveStages crop ->
     totalWaterMm (calculateSeasonalWaterRequirement crop (e1 + e2)) =
       totalWaterMm (calculateSeasonalWaterRequirement crop e1) +
       totalWaterMm (calculateSeasonalWaterRequirement crop e2) /\
     totalWaterMm (calculateSeasonalWaterRequirement crop (k * e1)) =
       k * totalWaterMm (calculateSeasonalWaterRequirement crop e1) /\
     averageKc (calculateSeasonalWaterRequirement crop e1) =
       averageKc (calculateSeasonalWaterRequirement crop e2) /\
     totalDays (calculateSeasonalWaterRequirement crop e1) =
       totalDays (calculateSeasonalWaterRequirement crop e2)) /\
  (Float64.totalWaterMm
     (Float64.calculateSeasonalWaterRequirement Float64.crop_corn
        (3 * 0.1)%float) = 31.050000000000004%float /\
   (3 * Float64.totalWaterMm
          (Float64.calculateSeasonalWaterRequirement Float64.crop_corn
             0.1%float))%float = 31.049999999999997%float).
Proof.
  split; [exact totalWaterMm_linear_exact | vm_compute; repeat split].
Qed.


Lemma totalWaterMm_linear_witness :
  positiveStages crop_corn /\
  totalWaterMm (calculateSeasonalWaterRequirement crop_corn (2 * 4)) =
  2 * totalWaterMm (calculateSeasonalWaterRequirement crop_corn 4).
Proof.
  assert (H : positiveStages crop_corn)
    by (unfold positiveStages; cbn; lra).
  split; [exact H | ].
  exact (proj1 (proj2 (proj1 totalWaterMm_linear crop_corn 4 4 2 H))).
Defined.

Lemma corn_cropInvariant : cropInvariant crop_corn.
Proof. unfold cropInvariant, positiveStages, kcInRange; cbn; lra. Qed.

Lemma totalWaterMm_range_exact (crop : CropData) (averageET0 : R) :
  cropInvariant crop ->
  0 < averageET0 ->
  let r := calculateSeasonalWaterRequirement crop averageET0 in
  0 < totalWaterMm r <= 1.5 * averageET0 * totalDays r.
Proof.
  intros (Hp & HI & HM & HE) He r.
  unfold kcInRange in HI, HM, HE.
  pose proof (totalDays_positive crop averageET0 Hp) as Ht; fold r in Ht.
  pose proof (averageKc_times_totalDays crop averageET0 Hp) as Hs.
  cbv zeta in Hs; fold r in Hs.
  destruct Hp as (Hi & Hd & Hm & Hl).
  assert (Hsum :
    0 < averageKc r * totalDays r <= 1.5 * totalDays r).
  { rewrite Hs.
    change (totalDays r) with
      (initial (growthStages crop) + development (growthStages crop) +
       midSeason (growthStages crop) + lateSeason (growthStages crop)).
    split; nra. }
  change (totalWaterMm r) with (averageKc r * averageET0 * totalDays r).
  replace (averageKc r * averageET0 * totalDays r)
    with (averageET0 * (averageKc r * totalDays r)) by ring.
  replace (1.5 * averageET0 * totalDays r)
    with (averageET0 * (1.5 * totalDays r)) by ring.
  split.
  - apply Rmult_lt_0_compat; lra.
  - apply Rmult_le_compat_l; lra.
Qed.

(** X6: in exact real arithmetic, for a crop that satisfies the
    data-model invariant and a positive ET0 the seasonal total is
    positive and at most [1.5 * averageET0 * totalDays].  In double
    arithmetic the source can pass the upper bound by rounding: with the
    three coefficients equal to 1.5, the stages 69/99/133/189.9 and ET0
    10.5 it returns 7731.675, while [1.5 * 10.5 * totalDays] evaluates to
    7731.674999999999. *)
Theorem totalWaterMm_range :
  (forall (crop : CropData) (averageET0 : R),
     cropInvariant crop ->
     0 < averageET0 ->
     let r := calculateSeasonalWaterRequirement crop averageET0 in
     0 < totalWaterMm r <= 1.5 * averageET0 * totalDays r) /\
  (let crop :=
     Float64.customCrop 1.5 1.5 1.5
       {| Float64.initial := 69; Float64.development := 99;
          Float64.midSeason := 133; Float64.lateSeason := 189.9 |} in
   let r := Float64.calculateSeasonalWaterRequirement crop 10.5 in
   Float64.positiveStages crop = true /\
   Float64.totalWaterMm r = 7731.675%float /\
   (1.5 * 10.5 * Float64.totalDays r)%float = 7731.674999999999%float /\
   PrimFloat.ltb (1.5 * 10.5 * Float64.totalDays r)%float
     (Float64.totalWaterMm r) = true).
Proof.
  split; [exact totalWaterMm_range_exact | vm_compute; repeat split].
Qed.


Lemma totalWaterMm_range_witness :
  (cropInvariant crop_corn /\ 0 < 5) /\
  0 < totalWaterMm (calculateSeasonalWaterRequirement crop_corn 5)
    <= 1.5 * 5 * totalDays (calculateSeasonalWaterRequirement crop_corn 5).
Proof.
  assert (H : 0 < 5) by lra.
  split;
    [ split; [exact corn_cropInvariant | exact H]
    | exact (proj1 totalWaterMm_range crop_corn 5 corn_cropInvariant H) ].
Defined.

(** ** Inside the ramps *)

Lemma progress_strict (x len : R) :
  0 < len -> 0 < x < len -> 0 < x / len < 1.
Proof.
  intros Hlen [H0 H1].
  pose proof (Rinv_0_lt_compat len Hlen) as Hinv.
  unfold Rdiv; split.
  - apply Rmult_lt_0_compat; lra.
  - replace 1 with (len * / len) by (field; lra).
    apply Rmult_lt_compat_r; lra.
Qed.

Lemma ramp_strictly_between (a b t : R) :
  a <> b -> 0 < t < 1 -> Rmin a b < a + t * (b - a) < Rmax a b.
Proof.
  intros Hab [H0 H1].
  destruct (Rle_dec a b) as [Hle | Hgt].
  - rewrite Rmin_left, Rmax_right by lra; nra.
  - rewrite Rmin_right, Rmax_left by lra; nra.
Qed.

Lemma getKcForDay_inside_ramps_exact (crop : CropData) (d : R) :
  positiveStages crop ->
  (kcInitial crop <> kcMid crop -> b1 crop < d < b2 crop ->
   Rmin (kcInitial crop) (kcMid crop) < getKcForDay crop d
     < Rmax (kcInitial crop) (kcMid crop)) /\
  (kcMid crop <> kcEnd crop -> b3 crop < d < seasonLength crop ->
   Rmin (kcMid crop) (kcEnd crop) < getKcForDay crop d
     < Rmax (kcMid crop) (kcEnd crop)) /\
  getKcForDay crop (b2 crop) = kcMid crop.
Proof.
  intros Hp.
  assert (Hb : 0 < b1 crop < b2 crop /\ b2 crop < b3 crop < seasonLength crop)
    by (unfold positiveStages, seasonLength, b3, b2, b1 in *; lra).
  pose proof Hp as (Hi & Hd & Hm & Hl).
  split; [ | split].
  - intros Hk Hin.
    rewrite getKcForDay_development by lra.
    apply ramp_strictly_between; [exact Hk | ].
    apply progress_strict; unfold b2 in Hin; lra.
  - intros Hk Hin.
    rewrite getKcForDay_lateSeason by (assumption || lra).
    apply ramp_strictly_between; [exact Hk | ].
    apply progress_strict; unfold seasonLength in Hin; lra.
  - rewrite getKcForDay_development by lra.
    unfold b2; field; lra.
Qed.

(** X7: in exact real arithmetic, for a crop with strictly positive
    stage lengths, strictly inside the development stage the coefficient
    lies strictly between [kcInitial] and [kcMid] when these differ, and
    strictly inside the late season strictly between [kcMid] and [kcEnd]
    when these differ; at the end of the development stage it has reached
    [kcMid].  In double arithmetic the source can miss both by rounding:
    with the coefficients 0.3/0.9/0.5 and the stages 15/25/50/30 it
    returns 0.9000000000000001 at day 40, the end of the development
    stage; with the coefficients 0.66/0.44/0.5 and the stages 15/16/50/30
    it returns [kcInitial] itself at day 15.000000000000002, inside the
    development stage. *)
Theorem getKcForDay_inside_ramps :
  (forall (crop : CropData) (d : R),
     positiveStages crop ->
     (kcInitial crop <> kcMid crop -> b1 crop < d < b2 crop ->
      Rmin (kcInitial crop) (kcMid crop) < getKcForDay crop d
        < Rmax (kcInitial crop) (kcMid crop)) /\
     (kcMid crop <> kcEnd crop -> b3 crop < d < seasonLength crop ->
      Rmin (kcMid crop) (kcEnd crop) < getKcForDay crop d
        < Rmax (kcMid crop) (kcEnd crop)) /\
     getKcForDay crop (b2 crop) = kcMid crop) /\
  (let crop := Float64.customCrop 0.3 0.9 0.5 Float64.soybeanStages in
   Float64.positiveStages crop = true /\
   Float64.b2 crop = 40%float /\
   Float64.getKcForDay crop 40 = 0.9000000000000001%float /\
   PrimFloat.eqb (Float64.getKcForDay crop 40) (Float64.kcMid crop) = false)
  /\
  (let crop :=
     Float64.customCrop 0.66 0.44 0.5
       {| Float64.initial := 15; Float64.development := 16;
          Float64.midSeason := 50; Float64.lateSeason := 30 |} in
   Float64.positiveStages crop = true /\
   PrimFloat.ltb 15 15.000000000000002 = true /\
   PrimFloat.ltb 15.000000000000002 (Float64.b2 crop) = true /\
   Float64.getKcForDay crop 15.000000000000002 = Float64.kcInitial crop).
Proof.
  split; [exact getKcForDay_inside_ramps_exact | ].
  split; vm_compute; repeat split.
Qed.


Lemma getKcForDay_inside_ramps_witness :
  positiveStages crop_soybeans /\
  (Rmin (kcInitial crop_soybeans) (kcMid crop_soybeans)
     < getKcForDay crop_soybeans 20
     < Rmax (kcInitial crop_soybeans) (kcMid crop_soybeans)) /\
  (Rmin (kcMid crop_soybeans) (kcEnd crop_soybeans)
     < getKcForDay crop_soybeans 100
     < Rmax (kcMid crop_soybeans) (kcEnd crop_soybeans)) /\
  getKcForDay crop_soybeans (b2 crop_soybeans) = kcMid crop_soybeans.
Proof.
  split; [exact soybeans_positiveStages | ].
  split; [ | split].
  - apply (proj1 (proj1 getKcForDay_inside_ramps crop_soybeans 20
                    soybeans_positiveStages));
      unfold b2, b1; cbn; lra.
  - apply (proj1 (proj2 (proj1 getKcForDay_inside_ramps crop_soybeans 100
                           soybeans_positiveStages)));
      unfold seasonLength, b3, b2, b1; cbn; lra.
  - exact (proj2 (proj2 (proj1 getKcForDay_inside_ramps crop_soybeans 20
                           soybeans_positiveStages))).
Defined.

(** ** The curve has no jump inside the season *)

Lemma clamp01_low (t : R) : t <= 0 -> clamp01 t = 0.
Proof.
  intros H; unfold clamp01.
  rewrite Rmin_right by lra; rewrite Rmax_left by lra; reflexivity.
Qed.

Lemma clamp01_unit (t : R) : 0 <= t <= 1 -> clamp01 t = t.
Proof.
  intros H; unfold clamp01.
  rewrite Rmin_right by lra; rewrite Rmax_right by lra; reflexivity.
Qed.

Lemma clamp01_high (t : R) : 1 <= t -> clamp01 t = 1.
Proof.
  intros H; unfold clamp01.
  rewrite Rmin_left by lra; rewrite Rmax_right by lra; reflexivity.
Qed.

Lemma clamp01_lipschitz (s t : R) :
  Rabs (clamp01 s - clamp01 t) <= Rabs (s - t).
Proof.
  destruct (Rle_dec s 0); destruct (Rle_dec t 0);
    destruct (Rle_dec 1 s); destruct (Rle_dec 1 t);
    try (exfalso; lra);
    repeat first
      [ rewrite (clamp01_low s) by lra | rewrite (clamp01_low t) by lra
      | rewrite (clamp01_high s) by lra | rewrite (clamp01_high t) by lra
      | rewrite (clamp01_unit s) by lra | rewrite (clamp01_unit t) by lra ];
    unfold Rabs; repeat destruct Rcase_abs; lra.
Qed.

Lemma quotient_nonpositive (x len : R) : 0 < len -> x <= 0 -> x / len <= 0.
Proof.
  intros Hlen Hx.
  pose proof (Rinv_0_lt_compat len Hlen) as Hinv.
  unfold Rdiv; nra.
Qed.

Lemma quotient_at_least_one (x len : R) : 0 < len -> len <= x -> 1 <= x / len.
Proof.
  intros Hlen Hx.
  pose proof (Rinv_0_lt_compat len Hlen) as Hinv.
  replace 1 with (len * / len) by (field; lra).
  unfold Rdiv; apply Rmult_le_compat_r; lra.
Qed.

(** Inside the season the curve is the sum of the two clamped ramps. *)
Lemma getKcForDay_clamped (crop : CropData) (d : R) :
  positiveStages crop ->
  0 <= d <= seasonLength crop ->
  getKcForDay crop d =
  kcInitial crop +
  clamp01 ((d - b1 crop) / development (growthStages crop)) *
    (kcMid crop - kcInitial crop) +
  clamp01 ((d - b3 crop) / lateSeason (growthStages crop)) *
    (kcEnd crop - kcMid crop).
Proof.
  intros Hp Hin.
  assert (Hb : 0 < b1 crop < b2 crop /\ b2 crop < b3 crop < seasonLength crop)
    by (unfold positiveStages, seasonLength, b3, b2, b1 in *; lra).
  pose proof Hp as (Hi & Hd & Hm & Hl).
  destruct (Rle_dec d (b1 crop)) as [H1 | H1].
  { rewrite getKcForDay_initial by lra.
    rewrite !clamp01_low by (apply quotient_nonpositive; lra).
    lra. }
  destruct (Rle_dec d (b2 crop)) as [H2 | H2].
  { rewrite getKcForDay_development by lra.
    rewrite (clamp01_unit ((d - b1 crop) / _))
      by (apply progress_range; unfold b2 in H2; lra).
    rewrite clamp01_low by (apply quotient_nonpositive; lra).
    lra. }
  destruct (Rle_dec d (b3 crop)) as [H3 | H3].
  { rewrite getKcForDay_midSeason by (assumption || lra).
    rewrite clamp01_high by (apply quotient_at_least_one; unfold b2 in H2; lra).
    rewrite clamp01_low by (apply quotient_nonpositive; lra).
    lra. }
  rewrite getKcForDay_lateSeason by (assumption || lra).
  rewrite clamp01_high
    by (apply quotient_at_least_one; unfold b2 in H2; lra).
  rewrite clamp01_unit
    by (apply progress_range; unfold seasonLength in Hin; lra).
  lra.
Qed.

Lemma quotient_difference (x y c len : R) :
  0 < len ->
  Rabs ((x - c) / len - (y - c) / len) = Rabs (x - y) / len.
Proof.
  intros Hlen.
  replace ((x - c) / len - (y - c) / len) with ((x - y) * / len)
    by (field; lra).
  rewrite Rabs_mult, (Rabs_pos_eq (/ len)); [reflexivity | ].
  left; apply Rinv_0_lt_compat; exact Hlen.
Qed.

Lemma getKcForDay_lipschitz_exact (crop : CropData) (x y : R) :
  positiveStages crop ->
  0 <= x <= seasonLength crop ->
  0 <= y <= seasonLength crop ->
  Rabs (getKcForDay crop x - getKcForDay crop y) <=
  (Rabs (kcMid crop - kcInitial crop) / development (growthStages crop) +
   Rabs (kcEnd crop - kcMid crop) / lateSeason (growthStages crop)) *
  Rabs (x - y).
Proof.
  intros Hp Hx Hy.
  rewrite (getKcForDay_clamped crop x Hp Hx), (getKcForDay_clamped crop y Hp Hy).
  destruct Hp as (Hi & Hd & Hm & Hl).
  set (dev := development (growthStages crop)) in *.
  set (late := lateSeason (growthStages crop)) in *.
  set (u := kcMid crop - kcInitial crop).
  set (v := kcEnd crop - kcMid crop).
  set (cx1 := clamp01 ((x - b1 crop) / dev)).
  set (cy1 := clamp01 ((y - b1 crop) / dev)).
  set (cx2 := clamp01 ((x - b3 crop) / late)).
  set (cy2 := clamp01 ((y - b3 crop) / late)).
  replace (kcInitial crop + cx1 * u + cx2 * v -
           (kcInitial crop + cy1 * u + cy2 * v))
    with ((cx1 - cy1) * u + (cx2 - cy2) * v) by ring.
  eapply Rle_trans; [apply Rabs_triang | ].
  rewrite !Rabs_mult.
  assert (H1 : Rabs (cx1 - cy1) <= Rabs (x - y) / dev).
  { rewrite <- (quotient_difference x y (b1 crop) dev Hd).
    apply clamp01_lipschitz. }
  assert (H2 : Rabs (cx2 - cy2) <= Rabs (x - y) / late).
  { rewrite <- (quotient_difference x y (b3 crop) late Hl).
    apply clamp01_lipschitz. }
  pose proof (Rabs_pos u) as Hu.
  pose proof (Rabs_pos v) as Hv.
  apply (Rmult_le_compat_r _ _ _ Hu) in H1.
  apply (Rmult_le_compat_r _ _ _ Hv) in H2.
  replace ((Rabs u / dev + Rabs v / late) * Rabs (x - y))
    with (Rabs (x - y) / dev * Rabs u + Rabs (x - y) / late * Rabs v)
    by (field; split; apply Rgt_not_eq; assumption).
  apply Rplus_le_compat; assumption.
Qed.

(** X8: in exact real arithmetic, for a crop with strictly positive
    stage lengths the Kc curve has no jump inside the season: for any two
    days [x], [y] of [0, totalDays] the coefficients differ by at most
    [(|kcMid - kcInitial| / development + |kcEnd - kcMid| / lateSeason)
    * |x - y|].  In double arithmetic the source can pass the bound by
    rounding: for the coffee record and the days 60 and 63 the returned
    values differ by 0.0016666666666667052, while the bound evaluates to
    0.0016666666666666644. *)
Theorem getKcForDay_lipschitz :
  (forall (crop : CropData) (x y : R),
     positiveStages crop ->
     0 <= x <= seasonLength crop ->
     0 <= y <= seasonLength crop ->
     Rabs (getKcForDay crop x - getKcForDay crop y) <=
     (Rabs (kcMid crop - kcInitial crop) / development (growthStages crop) +
      Rabs (kcEnd crop - kcMid crop) / lateSeason (growthStages crop)) *
     Rabs (x - y)) /\
  (let crop := Float64.crop_coffee in
   let difference :=
     PrimFloat.abs (Float64.getKcForDay crop 60 - Float64.getKcForDay crop 63)
   in
   let bound :=
     ((PrimFloat.abs (Float64.kcMid crop - Float64.kcInitial crop) /
         Float64.development (Float64.growthStages crop) +
       PrimFloat.abs (Float64.kcEnd crop - Float64.kcMid crop) /
         Float64.lateSeason (Float64.growthStages crop)) *
      PrimFloat.abs (60 - 63)) in
   difference = 0.0016666666666667052 /\
   bound = 0.0016666666666666644 /\
   PrimFloat.ltb bound difference = true)%float.
Proof.
  split; [exact getKcForDay_lipschitz_exact | vm_compute; repeat split].
Qed.


Lemma getKcForDay_lipschitz_witness :
  (positiveStages crop_soybeans /\
   0 <= 20 <= seasonLength crop_soybeans /\
   0 <= 100 <= seasonLength crop_soybeans) /\
  Rabs (getKcForDay crop_soybeans 20 - getKcForDay crop_soybeans 100) <=
  (Rabs (kcMid crop_soybeans - kcInitial crop_soybeans) /
     development (growthStages crop_soybeans) +
   Rabs (kcEnd crop_soybeans - kcMid crop_soybeans) /
     lateSeason (growthStages crop_soybeans)) *
  Rabs (20 - 100).
Proof.
  assert (H20 : 0 <= 20 <= seasonLength crop_soybeans)
    by (unfold seasonLength, b3, b2, b1; cbn; lra).
  assert (H100 : 0 <= 100 <= seasonLength crop_soybeans)
    by (unfold seasonLength, b3, b2, b1; cbn; lra).
  split;
    [ split; [exact soybeans_positiveStages | split; [exact H20 | exact H100]]
    | exact (proj1 getKcForDay_lipschitz crop_soybeans 20 100
               soybeans_positiveStages H20 H100) ].
Defined.

(** The season has an edge at day 0: just before it the value is
    [kcEnd], at it [kcInitial]. *)
Example getKcForDay_soybeans_edge :
  getKcForDay crop_soybeans 0 = 0.4 /\ getKcForDay crop_soybeans (-1) = 0.5.
Proof.
  split.
  - rewrite getKcForDay_initial; unfold seasonLength, b3, b2, b1; cbn; lra.
  - rewrite getKcForDay_out_of_range; [cbn; lra | left; lra].
Qed.

(** ** Daily crop evapotranspiration *)

(** Every value of the curve is a point of one of the two ramps. *)
Lemma getKcForDay_on_a_ramp (crop : CropData) (d : R) :
  positiveStages crop ->
  (exists t, 0 <= t <= 1 /\
     getKcForDay crop d =
     kcInitial crop + t * (kcMid crop - kcInitial crop)) \/
  (exists t, 0 <= t <= 1 /\
     getKcForDay crop d = kcMid crop + t * (kcEnd crop - kcMid crop)).
Proof.
  intros Hp.
  pose proof (kcReference_getKcForDay crop d Hp) as Hk.
  remember (getKcForDay crop d) as k eqn:Ek; clear Ek.
  destruct Hp as (Hi & Hd & Hm & Hl).
  destruct Hk as [H | H | H | H | H].
  - right; exists 1; split; lra.
  - left; exists 0; split; lra.
  - left; exists ((d - b1 crop) / development (growthStages crop)).
    split; [ | reflexivity].
    apply progress_range; unfold b2 in H; lra.
  - left; exists 1; split; lra.
  - right; exists ((d - b3 crop) / lateSeason (growthStages crop)).
    split; [ | reflexivity].
    apply progress_range; unfold seasonLength in H; lra.
Qed.

Lemma daily_ETc_between_shown_figures_exact (crop : CropData) (et0 d : R) :
  positiveStages crop ->
  Rmin (Rmin (etcInitial crop et0) (etcMid crop et0)) (etcEnd crop et0)
    <= calculateETc et0 (getKcForDay crop d)
    <= Rmax (Rmax (etcInitial crop et0) (etcMid crop et0)) (etcEnd crop et0).
Proof.
  intros Hp.
  unfold etcInitial, etcMid, etcEnd, calculateETc.
  set (eI := et0 * kcInitial crop).
  set (eM := et0 * kcMid crop).
  set (eE := et0 * kcEnd crop).
  pose proof (Rmin_l (Rmin eI eM) eE). pose proof (Rmin_r (Rmin eI eM) eE).
  pose proof (Rmin_l eI eM). pose proof (Rmin_r eI eM).
  pose proof (Rmax_l (Rmax eI eM) eE). pose proof (Rmax_r (Rmax eI eM) eE).
  pose proof (Rmax_l eI eM). pose proof (Rmax_r eI eM).
  destruct (getKcForDay_on_a_ramp crop d Hp) as [[t [Ht ->]] | [t [Ht ->]]].
  - replace (et0 * (kcInitial crop + t * (kcMid crop - kcInitial crop)))
      with (eI + t * (eM - eI)) by (subst eI eM; ring).
    pose proof (ramp_between eI eM t Ht).
    lra.
  - replace (et0 * (kcMid crop + t * (kcEnd crop - kcMid crop)))
      with (eM + t * (eE - eM)) by (subst eM eE; ring).
    pose proof (ramp_between eM eE t Ht).
    pose proof (Rmin_l eM eE). pose proof (Rmin_r eM eE).
    pose proof (Rmax_l eM eE). pose proof (Rmax_r eM eE).
    destruct (Rle_dec eM eE);
      [ rewrite Rmin_left, Rmax_right in * by lra
      | rewrite Rmin_right, Rmax_left in * by lra ]; lra.
Qed.

(** X9: in exact real arithmetic, for a crop with strictly positive
    stage lengths, any ET0 and any day, the daily crop evapotranspiration
    [calculateETc et0 (getKcForDay crop d)] lies between the least and
    the greatest of the three figures the detail view shows
    ([etcInitial], [etcMid], [etcEnd]).  In double arithmetic the source
    can pass the bound by rounding: with the coefficients 0.3/0.9/0.5,
    the stages 15/25/50/30, ET0 5 and day 40 it gives 4.500000000000001,
    above the three shown figures 1.5, 4.5 and 2.5. *)
Theorem daily_ETc_between_shown_figures :
  (forall (crop : CropData) (et0 d : R),
     positiveStages crop ->
     Rmin (Rmin (etcInitial crop et0) (etcMid crop et0)) (etcEnd crop et0)
       <= calculateETc et0 (getKcForDay crop d)
       <= Rmax (Rmax (etcInitial crop et0) (etcMid crop et0))
               (etcEnd crop et0)) /\
  (let crop := Float64.customCrop 0.3 0.9 0.5 Float64.soybeanStages in
   let daily := Float64.calculateETc 5 (Float64.getKcForDay crop 40) in
   Float64.positiveStages crop = true /\
   daily = 4.500000000000001%float /\
   Float64.calculateETc 5 (Float64.kcInitial crop) = 1.5%float /\
   Float64.calculateETc 5 (Float64.kcMid crop) = 4.5%float /\
   Float64.calculateETc 5 (Float64.kcEnd crop) = 2.5%float /\
   PrimFloat.ltb 4.5 daily = true).
Proof.
  split; [exact daily_ETc_between_shown_figures_exact
         | vm_compute; repeat split].
Qed.


Lemma daily_ETc_between_shown_figures_witness :
  positiveStages crop_soybeans /\
  Rmin (Rmin (etcInitial crop_soybeans 5) (etcMid crop_soybeans 5))
       (etcEnd crop_soybeans 5)
    <= calculateETc 5 (getKcForDay crop_soybeans 100)
    <= Rmax (Rmax (etcInitial crop_soybeans 5) (etcMid crop_soybeans 5))
            (etcEnd crop_soybeans 5).
Proof.
  split;
    [ exact soybeans_positiveStages
    | exact (proj1 daily_ETc_between_shown_figures crop_soybeans 5 100
               soybeans_positiveStages) ].
Defined.

(** * Properties of the weather service *)

Lemma Reqb_true (x y : R) : Reqb x y = true <-> x = y.
Proof. unfold Reqb; destruct (Req_dec_T x y); split; intros; try easy. Qed.

Lemma Reqb_false (x y : R) : Reqb x y = false <-> x <> y.
Proof. unfold Reqb; destruct (Req_dec_T x y); split; intros; try easy. Qed.

(** Decide one comparison of the goal, dropping the impossible side. *)
Ltac decide_test :=
  match goal with
  | |- context [Reqb ?x ?y] =>
      let E := fresh "E" in
      destruct (Reqb x y) eqn:E;
      [apply Reqb_true in E | apply Reqb_false in E]
  | |- context [Rleb ?x ?y] =>
      let E := fresh "E" in
      destruct (Rleb x y) eqn:E;
      [apply Rleb_true in E | apply Rleb_false in E]
  | |- context [Rltb ?x ?y] =>
      let E := fresh "E" in
      destruct (Rltb x y) eqn:E;
      [apply Rltb_true in E | apply Rltb_false in E]
  end;
  try (exfalso; lra); try (exfalso; congruence); cbn [orb].

(** ** getET0Level *)

(** X10: [getET0Level] sorts every ET0 into exactly one of four classes
    with the thresholds 3, 5 and 7 belonging to the upper class: "Low"
    below 3, "Moderate" on [3, 5), "High" on [5, 7), "Very High" from 7
    on; colour and description are fixed by the level. *)
Theorem getET0Level_classes (et0 : R) :
  (WeatherApi.level (WeatherApi.getET0Level et0) = "Low"%string <->
   et0 < 3) /\
  (WeatherApi.level (WeatherApi.getET0Level et0) = "Moderate"%string <->
   3 <= et0 < 5) /\
  (WeatherApi.level (WeatherApi.getET0Level et0) = "High"%string <->
   5 <= et0 < 7) /\
  (WeatherApi.level (WeatherApi.getET0Level et0) = "Very High"%string <->
   7 <= et0) /\
  (forall et0',
     WeatherApi.level (WeatherApi.getET0Level et0) =
     WeatherApi.level (WeatherApi.getET0Level et0') ->
     WeatherApi.getET0Level et0 = WeatherApi.getET0Level et0').
Proof.
  unfold WeatherApi.getET0Level.
  repeat decide_test; cbn [WeatherApi.level];
    (repeat split; try (intros; (discriminate || lra || reflexivity)));
    intros et0'; repeat decide_test; cbn [WeatherApi.level];
    intros H; (discriminate H || reflexivity).
Qed.

(** X11: the level never goes down when ET0 goes up. *)
Theorem getET0Level_monotone (et0 et0' : R) :
  et0 <= et0' ->
  (WeatherApi.levelRank (WeatherApi.level (WeatherApi.getET0Level et0)) <=
   WeatherApi.levelRank (WeatherApi.level (WeatherApi.getET0Level et0')))%nat.
Proof.
  intros Hle; unfold WeatherApi.getET0Level.
  repeat decide_test; cbn; repeat constructor.
Qed.

Lemma getET0Level_monotone_witness :
  2.5 <= 6 /\
  (WeatherApi.levelRank (WeatherApi.level (WeatherApi.getET0Level 2.5)) <=
   WeatherApi.levelRank (WeatherApi.level (WeatherApi.getET0Level 6)))%nat.
Proof.
  assert (H : 2.5 <= 6) by lra.
  split; [exact H | exact (getET0Level_monotone 2.5 6 H)].
Defined.

(** The boundary values of the test-suite. *)
Example getET0Level_boundaries :
  WeatherApi.level (WeatherApi.getET0Level 3.0) = "Moderate"%string /\
  WeatherApi.level (WeatherApi.getET0Level 5.0) = "High"%string /\
  WeatherApi.level (WeatherApi.getET0Level 7.0) = "Very High"%string.
Proof.
  unfold WeatherApi.getET0Level; repeat split; repeat decide_test; reflexivity.
Qed.

(** ** getWeatherIcon and getWeatherDescription *)

(** The codes behind each description. *)
Lemma getWeatherDescription_cases (code : R) :
  let D := WeatherApi.getWeatherDescription code in
  (code = 0 /\ D = "Clear sky"%string) \/
  (code = 1 /\ D = "Mainly clear"%string) \/
  (code = 2 /\ D = "Partly cloudy"%string) \/
  (code = 3 /\ D = "Overcast"%string) \/
  ((code = 45 \/ code = 48) /\ D = "Fog"%string) \/
  ((code = 51 \/ code = 53 \/ code = 55) /\ D = "Drizzle"%string) \/
  ((code = 61 \/ code = 63 \/ code = 65) /\ D = "Rain"%string) \/
  ((code = 71 \/ code = 73 \/ code = 75) /\ D = "Snow"%string) \/
  (code = 77 /\ D = "Snow grains"%string) \/
  ((code = 80 \/ code = 81 \/ code = 82) /\ D = "Rain showers"%string) \/
  ((code = 85 \/ code = 86) /\ D = "Snow showers"%string) \/
  (code = 95 /\ D = "Thunderstorm"%string) \/
  ((code = 96 \/ code = 99) /\ D = "Thunderstorm with hail"%string) \/
  D = "Unknown"%string.
Proof.
  cbv zeta; unfold WeatherApi.getWeatherDescription.
  repeat decide_test; tauto.
Qed.

Ltac split_or H :=
  repeat match type of H with
         | _ \/ _ => destruct H as [H | H]
         end.

Ltac refute_premise :=
  repeat split; try reflexivity;
  let Hd := fresh "Hd" in
  intros Hd; split_or Hd; discriminate Hd.

(** X12: icon and description agree on every code that has a
    description: "Clear sky" comes with the sun, the three cloud
    descriptions with the cloud icon, "Fog" with the fog icon, drizzle,
    rain and rain showers with the rain icon, the three snow descriptions
    with the snow icon, both thunderstorm descriptions with the
    thunderstorm icon; and a code that gets the default icon has the
    description "Unknown". *)
Theorem icon_matches_description (code : R) :
  let D := WeatherApi.getWeatherDescription code in
  let I := WeatherApi.getWeatherIcon code in
  (D = "Clear sky" -> I = "☀️")%string /\
  (D = "Mainly clear" \/ D = "Partly cloudy" \/ D = "Overcast" ->
   I = "⛅")%string /\
  (D = "Fog" -> I = "🌫️")%string /\
  (D = "Drizzle" \/ D = "Rain" \/ D = "Rain showers" -> I = "🌧️")%string /\
  (D = "Snow" \/ D = "Snow grains" \/ D = "Snow showers" ->
   I = "🌨️")%string /\
  (D = "Thunderstorm" \/ D = "Thunderstorm with hail" -> I = "⛈️")%string /\
  (I = "🌤️" -> D = "Unknown")%string.
Proof.
  cbv zeta.
  pose proof (getWeatherDescription_cases code) as H; cbv zeta in H.
  split_or H.
  all: match type of H with
       | _ /\ _ =>
           destruct H as [Hc HD]; rewrite HD; split_or Hc; subst code;
           unfold WeatherApi.getWeatherIcon; repeat decide_test
       | _ => rewrite H
       end.
  all: refute_premise.
Qed.

(** X13: the default icon is given exactly to the codes above 99; every
    code below 0 gets the cloud icon of codes 1 to 3, and every code that
    is not a whole number has the description "Unknown" while it still
    gets the icon of the band it falls in. *)
Theorem getWeatherIcon_outside_the_table (code : R) :
  (WeatherApi.getWeatherIcon code = "🌤️"%string <-> 99 < code) /\
  (code < 0 -> WeatherApi.getWeatherIcon code = "⛅"%string) /\
  ((forall n : Z, code <> IZR n) ->
   WeatherApi.getWeatherDescription code = "Unknown"%string).
Proof.
  split; [ | split].
  - unfold WeatherApi.getWeatherIcon; repeat decide_test;
      split; intros H; try discriminate H; try reflexivity;
      try lra; exfalso; lra.
  - intros Hneg; unfold WeatherApi.getWeatherIcon; repeat decide_test;
      reflexivity.
  - intros Hfrac.
    pose proof (getWeatherDescription_cases code) as H; cbv zeta in H.
    split_or H;
      match type of H with
      | _ /\ _ =>
          exfalso; destruct H as [Hc _]; split_or Hc;
          match type of Hc with
          | code = IZR ?n => exact (Hfrac n Hc)
          end
      | _ => exact H
      end.
Qed.

Example getWeatherIcon_band_without_description :
  WeatherApi.getWeatherIcon 4 = "🌫️"%string /\
  WeatherApi.getWeatherDescription 4 = "Unknown"%string.
Proof.
  split.
  - unfold WeatherApi.getWeatherIcon; repeat decide_test; reflexivity.
  - unfold WeatherApi.getWeatherDescription; repeat decide_test; reflexivity.
Qed.

(** * Properties of the location store *)

Module LocationStorageFacts.

Import LocationStorage.

Lemma getCurrentLocation_healthy (s : Store) :
  healthy s -> getCurrentLocation s = (Resolved (currentLocationItem s), s).
Proof.
  destruct s as [cur sav fl]; unfold healthy; cbn; intros ->.
  destruct cur; reflexivity.
Qed.

Lemma getSavedLocations_healthy (s : Store) :
  healthy s -> getSavedLocations s = (Resolved (savedList s), s).
Proof.
  destruct s as [cur sav fl]; unfold healthy; cbn; intros ->.
  destruct sav; reflexivity.
Qed.

Lemma setCurrentLocation_healthy (location : Location) (s : Store) :
  healthy s ->
  setCurrentLocation location s =
  (Resolved tt,
   {| currentLocationItem := Some location;
      savedLocationsItem := savedLocationsItem s;
      faults := [] |}).
Proof.
  destruct s as [cur sav fl]; unfold healthy; cbn; intros ->; reflexivity.
Qed.

Lemma addSavedLocation_healthy (location : Location) (s : Store) :
  healthy s ->
  addSavedLocation location s =
  (Resolved tt,
   if existsb (sameCoordinates location) (savedList s) then s
   else {| currentLocationItem := currentLocationItem s;
           savedLocationsItem := Some (savedList s ++ [location]);
           faults := [] |}).
Proof.
  intros Hs.
  unfold addSavedLocation, try_catch, bind.
  rewrite (getSavedLocations_healthy s Hs).
  destruct (existsb (sameCoordinates location) (savedList s)); cbn [negb].
  - reflexivity.
  - destruct s as [cur sav fl]; unfold healthy in Hs; cbn in Hs; subst fl.
    reflexivity.
Qed.

Lemma removeSavedLocation_healthy (location : Location) (s : Store) :
  healthy s ->
  removeSavedLocation location s =
  (Resolved tt,
   {| currentLocationItem := currentLocationItem s;
      savedLocationsItem :=
        Some (filter (otherCoordinates location) (savedList s));
      faults := [] |}).
Proof.
  intros Hs.
  unfold removeSavedLocation, try_catch, bind.
  rewrite (getSavedLocations_healthy s Hs).
  destruct s as [cur sav fl]; unfold healthy in Hs; cbn in Hs; subst fl.
  reflexivity.
Qed.

Lemma sameCoordinates_true (a b : Location) :
  sameCoordinates a b = true <->
  latitude b = latitude a /\ longitude b = longitude a.
Proof.
  unfold sameCoordinates; rewrite andb_true_iff, !Reqb_true; reflexivity.
Qed.

Lemma sameCoordinates_refl (a : Location) : sameCoordinates a a = true.
Proof. apply sameCoordinates_true; split; reflexivity. Qed.

Lemma sameCoordinates_sym (a b : Location) :
  sameCoordinates a b = sameCoordinates b a.
Proof.
  destruct (sameCoordinates a b) eqn:Hab; symmetry.
  - apply sameCoordinates_true in Hab; apply sameCoordinates_true.
    destruct Hab; split; congruence.
  - destruct (sameCoordinates b a) eqn:Hba; [ | reflexivity].
    apply sameCoordinates_true in Hba.
    assert (Hc : sameCoordinates a b = true)
      by (apply sameCoordinates_true; destruct Hba; split; congruence).
    congruence.
Qed.

Lemma otherCoordinates_negb (a b : Location) :
  otherCoordinates a b = negb (sameCoordinates a b).
Proof.
  unfold otherCoordinates, sameCoordinates; rewrite negb_andb; reflexivity.
Qed.

Lemma savedList_stored (cur : option Location) (l : list Location)
    (fl : list bool) :
  savedList {| currentLocationItem := cur; savedLocationsItem := Some l;
               faults := fl |} = l.
Proof. reflexivity. Qed.

Lemma existsb_false_In (a : Location) (l : list Location) :
  existsb (sameCoordinates a) l = false <->
  (forall x, In x l -> sameCoordinates a x = false).
Proof.
  induction l as [ | y l IH]; cbn [existsb In].
  - split; [intros _ x [] | reflexivity].
  - rewrite orb_false_iff, IH; split.
    + intros [Hy Hl] x [<- | Hx]; [exact Hy | exact (Hl x Hx)].
    + intros H; split; [apply H; left; reflexivity | ].
      intros x Hx; apply H; right; exact Hx.
Qed.

Lemma filter_otherCoordinates_fresh (a : Location) (l : list Location) :
  existsb (sameCoordinates a) l = false ->
  filter (otherCoordinates a) l = l.
Proof.
  induction l as [ | y l IH]; cbn [existsb filter]; [reflexivity | ].
  rewrite orb_false_iff; intros [Hy Hl].
  rewrite otherCoordinates_negb, Hy; cbn [negb].
  rewrite IH by exact Hl; reflexivity.
Qed.

Lemma filter_otherCoordinates_gone (a : Location) (l : list Location) :
  existsb (sameCoordinates a) (filter (otherCoordinates a) l) = false.
Proof.
  apply existsb_false_In; intros x Hx.
  apply filter_In in Hx; destruct Hx as [_ Hx].
  rewrite otherCoordinates_negb in Hx.
  destruct (sameCoordinates a x); [discriminate Hx | reflexivity].
Qed.

Lemma distinctCoordinates_snoc (l : list Location) (a : Location) :
  distinctCoordinates l ->
  existsb (sameCoordinates a) l = false ->
  distinctCoordinates (l ++ [a]).
Proof.
  induction l as [ | y l IH]; cbn [distinctCoordinates existsb app].
  - intros _ _; split; [reflexivity | exact I].
  - rewrite orb_false_iff; intros [Hy Hl] [Hay Hal]; split.
    + rewrite existsb_app, Hy; cbn [existsb orb].
      rewrite sameCoordinates_sym, Hay; reflexivity.
    + apply IH; assumption.
Qed.

Lemma distinctCoordinates_middle (l rest : list Location) (a : Location) :
  distinctCoordinates (l ++ a :: rest) ->
  existsb (sameCoordinates a) l = false.
Proof.
  induction l as [ | y l IH]; cbn [distinctCoordinates existsb app];
    [reflexivity | ].
  intros [Hy Hl].
  rewrite existsb_app in Hy; apply orb_false_iff in Hy; destruct Hy as [_ Hy].
  cbn [existsb] in Hy; apply orb_false_iff in Hy; destruct Hy as [Hya _].
  rewrite sameCoordinates_sym, Hya; cbn [orb]; apply IH; exact Hl.
Qed.

(** ** Reads never reject *)

(** X14: [getCurrentLocation] and [getSavedLocations] always resolve and
    write nothing: when the backend call goes through they give what is
    stored ([null] or the empty list when nothing is), and when it rejects
    they give [null] and the empty list. *)
Theorem getters_never_reject (s : Store) :
  (exists v s',
     getCurrentLocation s = (Resolved v, s') /\
     currentLocationItem s' = currentLocationItem s /\
     savedLocationsItem s' = savedLocationsItem s /\
     (hd false (faults s) = false -> v = currentLocationItem s) /\
     (hd false (faults s) = true -> v = None)) /\
  (exists l s',
     getSavedLocations s = (Resolved l, s') /\
     currentLocationItem s' = currentLocationItem s /\
     savedLocationsItem s' = savedLocationsItem s /\
     (hd false (faults s) = false -> l = savedList s) /\
     (hd false (faults s) = true -> l = [])).
Proof.
  destruct s as [cur sav [ | [ | ] fl]]; destruct cur; destruct sav; cbn;
    split; eexists; eexists; (split; [reflexivity | ]);
    repeat split; intros H; (discriminate H || reflexivity).
Qed.

(** ** Writing and reading back *)

(** X15: on a store whose backend goes through, [setCurrentLocation]
    resolves, [getCurrentLocation] then gives back the location that was
    set, and the saved locations are untouched. *)
Theorem setCurrentLocation_round_trip (location : Location) (s : Store) :
  healthy s ->
  let s' := snd (setCurrentLocation location s) in
  fst (setCurrentLocation location s) = Resolved tt /\
  getCurrentLocation s' = (Resolved (Some location), s') /\
  savedLocationsItem s' = savedLocationsItem s.
Proof.
  intros Hs; cbv zeta.
  rewrite (setCurrentLocation_healthy location s Hs); cbn [fst snd].
  split; [reflexivity | split; [ | reflexivity]].
  rewrite getCurrentLocation_healthy by reflexivity; reflexivity.
Qed.

Lemma setCurrentLocation_round_trip_witness :
  healthy {| currentLocationItem := None; savedLocationsItem := None;
             faults := [] |} /\
  getCurrentLocation
    (snd (setCurrentLocation defaultLocation
            {| currentLocationItem := None; savedLocationsItem := None;
               faults := [] |})) =
  (Resolved (Some defaultLocation),
   snd (setCurrentLocation defaultLocation
          {| currentLocationItem := None; savedLocationsItem := None;
             faults := [] |})).
Proof.
  assert (H : healthy {| currentLocationItem := None;
                         savedLocationsItem := None; faults := [] |})
    by reflexivity.
  split; [exact H | ].
  exact (proj1 (proj2 (setCurrentLocation_round_trip defaultLocation _ H))).
Defined.

(** ** Adding and removing saved locations *)

(** X16: on a store whose backend goes through, [addSavedLocation]
    resolves and afterwards some saved location has the coordinates of the
    argument.  If one had them already the store is left as it was;
    otherwise the argument is appended at the end.  The current location
    is untouched, adding the same location again changes nothing, and a
    list without repeated coordinates stays so. *)
Theorem addSavedLocation_effect (location : Location) (s : Store) :
  healthy s ->
  let s' := snd (addSavedLocation location s) in
  fst (addSavedLocation location s) = Resolved tt /\
  existsb (sameCoordinates location) (savedList s') = true /\
  (existsb (sameCoordinates location) (savedList s) = true -> s' = s) /\
  (existsb (sameCoordinates location) (savedList s) = false ->
   savedList s' = savedList s ++ [location]) /\
  currentLocationItem s' = currentLocationItem s /\
  addSavedLocation location s' = (Resolved tt, s') /\
  (distinctCoordinates (savedList s) -> distinctCoordinates (savedList s')).
Proof.
  intros Hs; cbv zeta.
  rewrite (addSavedLocation_healthy location s Hs); cbn [fst snd].
  destruct (existsb (sameCoordinates location) (savedList s)) eqn:Hex.
  - repeat split; try assumption; try reflexivity.
    + intros H; discriminate H.
    + rewrite (addSavedLocation_healthy location s Hs), Hex; reflexivity.
    + intros H; exact H.
  - assert (Hin : existsb (sameCoordinates location)
                    (savedList s ++ [location]) = true).
    { rewrite existsb_app; cbn [existsb].
      rewrite sameCoordinates_refl, !orb_true_r; reflexivity. }
    repeat split; try reflexivity.
    + exact Hin.
    + intros H; discriminate H.
    + rewrite addSavedLocation_healthy by reflexivity.
      unfold savedList at 1; cbn [savedLocationsItem].
      rewrite Hin; reflexivity.
    + intros Hd; unfold savedList at 1; cbn [savedLocationsItem].
      apply distinctCoordinates_snoc; assumption.
Qed.

Lemma addSavedLocation_effect_witness :
  healthy curitibaUser /\
  savedList (snd (addSavedLocation defaultLocation curitibaUser)) =
  savedList curitibaUser /\
  addSavedLocation defaultLocation
    (snd (addSavedLocation defaultLocation curitibaUser)) =
  (Resolved tt, snd (addSavedLocation defaultLocation curitibaUser)).
Proof.
  assert (H : healthy curitibaUser) by reflexivity.
  pose proof (addSavedLocation_effect defaultLocation curitibaUser H) as E.
  cbv zeta in E.
  destruct E as (_ & Hex & Hsame & _ & _ & Hidem & _).
  split; [exact H | split; [ | exact Hidem]].
  rewrite Hsame; [reflexivity | ].
  cbn [curitibaUser savedList savedLocationsItem firstn
       DEFAULT_BRAZIL_LOCATIONS existsb defaultLocation hd].
  rewrite sameCoordinates_refl; reflexivity.
Defined.

(** X17: on a store whose backend goes through, [removeSavedLocation]
    resolves and afterwards no saved location has the coordinates of the
    argument, while exactly the saved locations with other coordinates
    are kept; the current location is untouched, and removing a location
    that was not saved leaves the list as it was. *)
Theorem removeSavedLocation_effect (location : Location) (s : Store) :
  healthy s ->
  let s' := snd (removeSavedLocation location s) in
  fst (removeSavedLocation location s) = Resolved tt /\
  existsb (sameCoordinates location) (savedList s') = false /\
  (forall x, In x (savedList s') <->
             In x (savedList s) /\ sameCoordinates location x = false) /\
  currentLocationItem s' = currentLocationItem s /\
  (existsb (sameCoordinates location) (savedList s) = false ->
   savedList s' = savedList s).
Proof.
  intros Hs; cbv zeta.
  rewrite (removeSavedLocation_healthy location s Hs); cbn [fst snd].
  rewrite !savedList_stored; cbn [currentLocationItem].
  split; [reflexivity | split; [ | split; [ | split]]].
  - apply filter_otherCoordinates_gone.
  - intros x; rewrite filter_In, otherCoordinates_negb.
    destruct (sameCoordinates location x); cbn [negb]; intuition congruence.
  - reflexivity.
  - apply filter_otherCoordinates_fresh.
Qed.

Lemma removeSavedLocation_effect_witness :
  healthy curitibaUser /\
  existsb (sameCoordinates defaultLocation)
    (savedList (snd (removeSavedLocation defaultLocation curitibaUser))) =
  false.
Proof.
  assert (H : healthy curitibaUser) by reflexivity.
  split; [exact H | ].
  exact (proj1 (proj2 (removeSavedLocation_effect defaultLocation
                         curitibaUser H))).
Defined.

(** X18: on a store whose backend goes through, adding a location whose
    coordinates are not saved yet and then removing it gives back the
    saved list one started from. *)
Theorem add_then_remove (location : Location) (s : Store) :
  healthy s ->
  existsb (sameCoordinates location) (savedList s) = false ->
  let s1 := snd (addSavedLocation location s) in
  let s2 := snd (removeSavedLocation location s1) in
  fst (removeSavedLocation location s1) = Resolved tt /\
  savedList s2 = savedList s /\
  currentLocationItem s2 = currentLocationItem s.
Proof.
  intros Hs Hfresh; cbv zeta.
  rewrite (addSavedLocation_healthy location s Hs), Hfresh; cbn [snd].
  rewrite removeSavedLocation_healthy by reflexivity; cbn [fst snd].
  rewrite !savedList_stored; cbn [currentLocationItem].
  split; [reflexivity | split; [ | reflexivity]].
  rewrite filter_app, filter_otherCoordinates_fresh by exact Hfresh.
  cbn [filter].
  rewrite otherCoordinates_negb, sameCoordinates_refl; cbn [negb].
  apply app_nil_r.
Qed.

Ltac compare_coordinates :=
  unfold sameCoordinates; cbn [latitude longitude];
  repeat (decide_test; cbn [andb orb]); try reflexivity.

Lemma add_then_remove_witness :
  (healthy curitibaUser /\
   existsb (sameCoordinates
              {| name := "Manaus, AM";
                 latitude := -3.1190; longitude := -60.0217 |})
     (savedList curitibaUser) = false) /\
  savedList
    (snd (removeSavedLocation
            {| name := "Manaus, AM";
               latitude := -3.1190; longitude := -60.0217 |}
            (snd (addSavedLocation
                    {| name := "Manaus, AM";
                       latitude := -3.1190; longitude := -60.0217 |}
                    curitibaUser)))) =
  savedList curitibaUser.
Proof.
  assert (H : healthy curitibaUser) by reflexivity.
  assert (F : existsb (sameCoordinates
                         {| name := "Manaus, AM";
                            latitude := -3.1190; longitude := -60.0217 |})
                (savedList curitibaUser) = false).
  { cbn [curitibaUser savedList savedLocationsItem firstn
         DEFAULT_BRAZIL_LOCATIONS existsb].
    compare_coordinates. }
  split; [split; [exact H | exact F] | ].
  exact (proj1 (proj2 (add_then_remove _ curitibaUser H F))).
Defined.

(** ** When the backend rejects *)

(** X19: a rejected write is thrown on and leaves both stored items as
    they were: [setCurrentLocation] rejects when its backend call does,
    and [addSavedLocation] (for coordinates not saved yet) and
    [removeSavedLocation] reject when the write that follows their read
    does. *)
Theorem rejected_writes_are_thrown_on
    (location : Location) (s : Store) (rest : list bool) :
  (faults s = true :: rest ->
   setCurrentLocation location s = (Rejected, withFaults rest s)) /\
  (faults s = false :: true :: rest ->
   existsb (sameCoordinates location) (savedList s) = false ->
   addSavedLocation location s = (Rejected, withFaults rest s)) /\
  (faults s = false :: true :: rest ->
   removeSavedLocation location s = (Rejected, withFaults rest s)).
Proof.
  destruct s as [cur sav fl]; unfold savedList, withFaults;
    cbn [faults savedLocationsItem currentLocationItem].
  split; [ | split].
  - intros ->; reflexivity.
  - intros -> Hex.
    unfold addSavedLocation, try_catch, bind, getSavedLocations, try_catch,
      bind, getItem_saved, nextFault, ret;
      cbn [faults savedLocationsItem currentLocationItem].
    destruct sav as [l | ];
      cbn [faults savedLocationsItem currentLocationItem];
      rewrite Hex; reflexivity.
  - intros ->; destruct sav; reflexivity.
Qed.

Lemma rejected_writes_are_thrown_on_witness :
  faults (withFaults [false; true] curitibaUser) = [false; true] /\
  removeSavedLocation defaultLocation (withFaults [false; true] curitibaUser)
  = (Rejected, withFaults [] (withFaults [false; true] curitibaUser)).
Proof.
  assert (H : faults (withFaults [false; true] curitibaUser) =
              [false; true]) by reflexivity.
  split; [exact H | ].
  exact (proj2 (proj2 (rejected_writes_are_thrown_on defaultLocation
                         (withFaults [false; true] curitibaUser) [])) H).
Defined.

(** X20: a read that rejects is taken for an empty store.  When the read
    of the saved locations rejects and the write after it goes through,
    [addSavedLocation] resolves and leaves the argument as the only saved
    location, and [removeSavedLocation] resolves and leaves the empty
    list, whatever was saved before. *)
Theorem rejected_read_overwrites_saved_locations
    (location : Location) (s : Store) :
  faults s = [true] ->
  addSavedLocation location s =
    (Resolved tt,
     {| currentLocationItem := currentLocationItem s;
        savedLocationsItem := Some [location];
        faults := [] |}) /\
  removeSavedLocation location s =
    (Resolved tt,
     {| currentLocationItem := currentLocationItem s;
        savedLocationsItem := Some [];
        faults := [] |}).
Proof.
  destruct s as [cur sav fl]; cbn [faults currentLocationItem].
  intros ->; split; reflexivity.
Qed.

Lemma rejected_read_overwrites_saved_locations_witness :
  faults (withFaults [true] curitibaUser) = [true] /\
  savedList curitibaUser = firstn 2 DEFAULT_BRAZIL_LOCATIONS /\
  savedList (snd (removeSavedLocation defaultLocation
                    (withFaults [true] curitibaUser))) = [].
Proof.
  assert (H : faults (withFaults [true] curitibaUser) = [true])
    by reflexivity.
  split; [exact H | split; [reflexivity | ]].
  rewrite (proj2 (rejected_read_overwrites_saved_locations defaultLocation
                    (withFaults [true] curitibaUser) H)).
  reflexivity.
Defined.

(** ** initializeDefaultLocation *)

Lemma DEFAULT_BRAZIL_LOCATIONS_distinct :
  distinctCoordinates DEFAULT_BRAZIL_LOCATIONS.
Proof.
  cbn [DEFAULT_BRAZIL_LOCATIONS distinctCoordinates existsb].
  repeat split; compare_coordinates.
Qed.

Lemma forEach_addSavedLocation_healthy (l : list Location) :
  forall s, healthy s ->
  exists s',
    forEach addSavedLocation l s = (Resolved tt, s') /\
    healthy s' /\
    currentLocationItem s' = currentLocationItem s /\
    (distinctCoordinates (savedList s ++ l) ->
     savedList s' = savedList s ++ l).
Proof.
  induction l as [ | a l IH]; intros s Hs.
  - exists s; cbn [forEach]; rewrite app_nil_r; repeat split;
      (assumption || reflexivity || auto).
  - cbn [forEach]; unfold bind.
    rewrite (addSavedLocation_healthy a s Hs).
    destruct (existsb (sameCoordinates a) (savedList s)) eqn:Hex.
    + destruct (IH s Hs) as (s' & Hrun & Hh & Hc & _).
      exists s'; rewrite Hrun; repeat split; try assumption.
      intros Hd; apply distinctCoordinates_middle in Hd; congruence.
    + destruct (IH {| currentLocationItem := currentLocationItem s;
                      savedLocationsItem := Some (savedList s ++ [a]);
                      faults := [] |} eq_refl)
        as (s' & Hrun & Hh & Hc & Hd).
      exists s'; rewrite Hrun; repeat split; try assumption.
      intros Hdist; rewrite savedList_stored, <- app_assoc in Hd.
      exact (Hd Hdist).
Qed.

Lemma initializeDefaultLocation_settled (s : Store) (loc : Location) :
  healthy s ->
  currentLocationItem s = Some loc ->
  savedList s <> [] ->
  initializeDefaultLocation s = (Resolved loc, s).
Proof.
  intros Hs Hcur Hsaved.
  unfold initializeDefaultLocation, bind.
  rewrite (getCurrentLocation_healthy s Hs), (getSavedLocations_healthy s Hs).
  rewrite Hcur.
  destruct (savedList s) as [ | x l]; [contradiction | reflexivity].
Qed.

(** X21: on a store whose backend goes through,
    [initializeDefaultLocation] resolves with the stored current location,
    or with the first default location (Sao Paulo) when none is stored.
    Afterwards that location is the stored current one; the saved
    locations are as before when there were some, and are the ten
    defaults in order when there were none.  Running it again gives the
    same answer and changes nothing. *)
Theorem initializeDefaultLocation_effect (s : Store) :
  healthy s ->
  exists loc s',
    initializeDefaultLocation s = (Resolved loc, s') /\
    loc = match currentLocationItem s with
          | Some l => l
          | None => defaultLocation
          end /\
    currentLocationItem s' = Some loc /\
    (savedList s <> [] -> savedLocationsItem s' = savedLocationsItem s) /\
    (savedList s = [] -> savedList s' = DEFAULT_BRAZIL_LOCATIONS) /\
    getCurrentLocation s' = (Resolved (Some loc), s') /\
    initializeDefaultLocation s' = (Resolved loc, s').
Proof.
  intros Hs.
  set (loc := match currentLocationItem s with
              | Some l => l
              | None => defaultLocation
              end).
  set (s1 := {| currentLocationItem := Some loc;
                savedLocationsItem := savedLocationsItem s;
                faults := [] |}).
  assert (H1 : healthy s1) by reflexivity.
  assert (Hstep :
    initializeDefaultLocation s =
    match (if Nat.eqb (List.length (savedList s)) 0
           then forEach addSavedLocation DEFAULT_BRAZIL_LOCATIONS
           else ret tt) s1 with
    | (Resolved _, s') => (Resolved loc, s')
    | (Rejected, s') => (Rejected, s')
    end).
  { unfold initializeDefaultLocation, bind.
    rewrite (getCurrentLocation_healthy s Hs),
      (getSavedLocations_healthy s Hs).
    subst s1 loc.
    destruct s as [cur sav fl]; unfold healthy in Hs; cbn in Hs; subst fl.
    destruct cur as [c | ]; cbn [currentLocationItem savedLocationsItem].
    - unfold ret at 1.
      destruct (if Nat.eqb _ 0 then _ else _) as [[u | ] s'];
        reflexivity.
    - rewrite setCurrentLocation_healthy by reflexivity.
      cbn [currentLocationItem savedLocationsItem].
      destruct (if Nat.eqb _ 0 then _ else _) as [[u | ] s'];
        reflexivity. }
  assert (Hs1 : savedList s1 = savedList s) by reflexivity.
  destruct (savedList s) as [ | x l] eqn:Hsaved.
  - cbn [List.length Nat.eqb] in Hstep.
    destruct (forEach_addSavedLocation_healthy DEFAULT_BRAZIL_LOCATIONS
                s1 H1) as (s' & Hrun & Hh & Hc & Hd).
    rewrite Hrun in Hstep.
    rewrite Hs1 in Hd; cbn [app] in Hd.
    specialize (Hd DEFAULT_BRAZIL_LOCATIONS_distinct).
    exists loc, s'.
    split; [exact Hstep | split; [reflexivity | split; [exact Hc | ]]].
    split; [intros Hne; contradiction | split; [intros _; exact Hd | ]].
    split.
    + rewrite getCurrentLocation_healthy by exact Hh; rewrite Hc; reflexivity.
    + apply initializeDefaultLocation_settled;
        [exact Hh | exact Hc | rewrite Hd; discriminate].
  - cbn [List.length Nat.eqb] in Hstep; unfold ret in Hstep.
    exists loc, s1.
    split; [exact Hstep | split; [reflexivity | split; [reflexivity | ]]].
    split; [intros _; reflexivity | ].
    split; [intros Hnil; discriminate Hnil | ].
    split.
    + rewrite getCurrentLocation_healthy by exact H1; reflexivity.
    + apply initializeDefaultLocation_settled;
        [exact H1 | reflexivity | rewrite Hs1; discriminate].
Qed.

Lemma initializeDefaultLocation_effect_witness :
  healthy freshInstall /\
  exists loc s',
    initializeDefaultLocation freshInstall = (Resolved loc, s') /\
    loc = match currentLocationItem freshInstall with
          | Some l => l
          | None => defaultLocation
          end /\
    currentLocationItem s' = Some loc /\
    (savedList freshInstall <> [] ->
     savedLocationsItem s' = savedLocationsItem freshInstall) /\
    (savedList freshInstall = [] ->
     savedList s' = DEFAULT_BRAZIL_LOCATIONS) /\
    getCurrentLocation s' = (Resolved (Some loc), s') /\
    initializeDefaultLocation s' = (Resolved loc, s').
Proof.
  assert (H : healthy freshInstall) by reflexivity.
  split; [exact H | exact (initializeDefaultLocation_effect freshInstall H)].
Defined.

(** X22: when the backend rejects the first three calls,
    [initializeDefaultLocation] rejects and leaves both stored items as
    they were: the two reads are taken for an empty store, and the write
    of the default current location is thrown on. *)
Theorem initializeDefaultLocation_rejects (s : Store) (rest : list bool) :
  faults s = true :: true :: true :: rest ->
  initializeDefaultLocation s = (Rejected, withFaults rest s).
Proof.
  destruct s as [cur sav fl]; cbn [faults]; intros ->; reflexivity.
Qed.

Lemma initializeDefaultLocation_rejects_witness :
  faults (withFaults [true; true; true] curitibaUser) = [true; true; true] /\
  initializeDefaultLocation (withFaults [true; true; true] curitibaUser) =
  (Rejected, withFaults [] (withFaults [true; true; true] curitibaUser)).
Proof.
  assert (H : faults (withFaults [true; true; true] curitibaUser) =
              [true; true; true]) by reflexivity.
  split; [exact H | exact (initializeDefaultLocation_rejects _ [] H)].
Defined.

End LocationStorageFacts.
